(** * umap/geodata.py: GeoPackage to GeoJSON conversion

    A shallow embedding of [gpkg_to_geojson] (src/umap/geodata.py) and the
    properties its specification states about it.

    The function is an adapter around four collaborators: the Fiona library,
    the [json] and [tempfile] modules and the [ogr2ogr] command.  Python
    values, strings, bytes, the JSON encoder and the UTF-8 codec are modelled
    concretely; Fiona and the external process, whose code is not part of the
    repository, are oracles gathered in a [world] record; the file system is a
    finite map from paths to contents; control flow ([try]/[except]/[finally],
    [with]) lives in a small monad that threads the file system, collects a
    log of the calls made to the outside world, and ends in a returned value
    or a raised exception.

    What the model leaves out: records are plain dictionaries with string
    keys, as Fiona gave them before its 1.9 model classes; removing a file
    that exists always works, so the only failure of [unlink] is a missing
    file; Fiona and the child process read files and never write them;
    [fiona.Env()] does nothing on entry and exit; writing the upload to the
    temporary file does not fail, reading it from the caller's object can. *)

From Stdlib Require Import ZArith NArith List Ascii String Bool Lia Decimal.
From Stdlib.Strings Require Import Byte.
From stdpp Require Import gmap strings list fin_maps.
Import ListNotations.

Local Open Scope N_scope.

(** ** Python strings and bytes *)

(** A Python [str] is a sequence of code points, a [bytes] a sequence of
    octets. *)
Abbreviation pystr := (list N).
Abbreviation bytes := (list byte).

(** String literals of the source. *)
Definition lit (s : string) : pystr :=
  map N_of_ascii (list_ascii_of_string s).

(** Bytes literals. *)
Definition blit (s : string) : bytes :=
  map byte_of_ascii (list_ascii_of_string s).

Definition byte_of_N (n : N) : byte :=
  match Byte.of_N n with Some b => b | None => x00 end.

Definition is_surrogate (c : N) : bool := (0xD800 <=? c) && (c <=? 0xDFFF).

(** [str.encode("utf-8")] on one code point; lone surrogates are refused
    (UnicodeEncodeError). *)
Definition encode_cp (c : N) : option bytes :=
  if c <? 0x80 then Some [byte_of_N c]
  else if c <? 0x800 then
    Some [byte_of_N (0xC0 + c / 64); byte_of_N (0x80 + c mod 64)]
  else if c <? 0x10000 then
    if is_surrogate c then None
    else Some [byte_of_N (0xE0 + c / 4096);
               byte_of_N (0x80 + (c / 64) mod 64);
               byte_of_N (0x80 + c mod 64)]
  else
    Some [byte_of_N (0xF0 + (c / 262144) mod 8);
          byte_of_N (0x80 + (c / 4096) mod 64);
          byte_of_N (0x80 + (c / 64) mod 64);
          byte_of_N (0x80 + c mod 64)].

Fixpoint encode_utf8 (s : pystr) : option bytes :=
  match s with
  | [] => Some []
  | c :: s' =>
      match encode_cp c, encode_utf8 s' with
      | Some b, Some bs => Some (b ++ bs)
      | _, _ => None
      end
  end.

(** The replacement character U+FFFD. *)
Definition REPLACEMENT : N := 0xFFFD.

Definition is_cont (c : N) : bool := (0x80 <=? c) && (c <? 0xC0).

(** [bytes.decode("utf-8", errors="replace")]: every maximal ill-formed
    subsequence becomes one U+FFFD and decoding resumes after it, so the
    function is total. *)
Fixpoint decode_utf8_replace (bs : bytes) : pystr :=
  match bs with
  | [] => []
  | b0 :: r0 =>
    let c0 := Byte.to_N b0 in
    if c0 <? 0x80 then c0 :: decode_utf8_replace r0
    else if c0 <? 0xC2 then REPLACEMENT :: decode_utf8_replace r0
    else if c0 <? 0xE0 then
      match r0 with
      | [] => [REPLACEMENT]
      | b1 :: r1 =>
        let c1 := Byte.to_N b1 in
        if is_cont c1
        then ((c0 - 0xC0) * 64 + (c1 - 0x80)) :: decode_utf8_replace r1
        else REPLACEMENT :: decode_utf8_replace r0
      end
    else if c0 <? 0xF0 then
      match r0 with
      | [] => [REPLACEMENT]
      | b1 :: r1 =>
        let c1 := Byte.to_N b1 in
        if negb (is_cont c1) || (if c1 <? 0xA0 then c0 =? 0xE0 else c0 =? 0xED)
        then REPLACEMENT :: decode_utf8_replace r0
        else
          match r1 with
          | [] => [REPLACEMENT]
          | b2 :: r2 =>
            let c2 := Byte.to_N b2 in
            if is_cont c2
            then ((c0 - 0xE0) * 4096 + (c1 - 0x80) * 64 + (c2 - 0x80))
                   :: decode_utf8_replace r2
            else REPLACEMENT :: decode_utf8_replace r1
          end
      end
    else if c0 <? 0xF5 then
      match r0 with
      | [] => [REPLACEMENT]
      | b1 :: r1 =>
        let c1 := Byte.to_N b1 in
        if negb (is_cont c1) || (if c1 <? 0x90 then c0 =? 0xF0 else c0 =? 0xF4)
        then REPLACEMENT :: decode_utf8_replace r0
        else
          match r1 with
          | [] => [REPLACEMENT]
          | b2 :: r2 =>
            let c2 := Byte.to_N b2 in
            if negb (is_cont c2) then REPLACEMENT :: decode_utf8_replace r1
            else
              match r2 with
              | [] => [REPLACEMENT]
              | b3 :: r3 =>
                let c3 := Byte.to_N b3 in
                if is_cont c3
                then ((c0 - 0xF0) * 262144 + (c1 - 0x80) * 4096
                      + (c2 - 0x80) * 64 + (c3 - 0x80))
                       :: decode_utf8_replace r3
                else REPLACEMENT :: decode_utf8_replace r2
              end
          end
      end
    else REPLACEMENT :: decode_utf8_replace r0
  end.

(** ** Exceptions and outcomes *)

(** The exception classes the function can meet.  [OtherException] stands for
    any further subclass of [Exception] (a Fiona [DriverError], an [OSError]
    of the caller's file object, ...), [NonException] for the classes that
    derive from [BaseException] only ([KeyboardInterrupt], [SystemExit]),
    which [except Exception] lets through. *)
Inductive exn : Type :=
| RuntimeError (msg : pystr)
| CalledProcessError (returncode : Z) (output stderr : bytes)
| TypeError (msg : pystr)
| FileNotFoundError (msg : pystr)
| UnicodeEncodeError (msg : pystr)
| OtherException (cls : string) (msg : pystr)
| NonException (cls : string).

Definition is_Exception (e : exn) : bool :=
  match e with NonException _ => false | _ => true end.

Definition is_RuntimeError (e : exn) : bool :=
  match e with RuntimeError _ => true | _ => false end.

Definition is_CalledProcessError (e : exn) : bool :=
  match e with CalledProcessError _ _ _ => true | _ => false end.

(** [e.stderr] of a [CalledProcessError]. *)
Definition stderr_of (e : exn) : bytes :=
  match e with CalledProcessError _ _ err => err | _ => [] end.

Inductive outcome (A : Type) : Type :=
| Ret (a : A)
| Raise (e : exn).
Arguments Ret {A} a.
Arguments Raise {A} e.

(** ** Python values *)

(** The values a record can hold.  [PyList] stands for lists and tuples
    alike (both are JSON arrays and both are false when empty); a float is
    identified by its [repr], which is what [json] prints; a dictionary has
    strings for keys, as records and geometries do, and keeps its insertion
    order. *)
#[warnings="-register-all"]
Inductive pyval : Type :=
| PyNone
| PyBool (b : bool)
| PyInt (z : Z)
| PyFloat (repr : pystr)
| PyStr (s : pystr)
| PyBytes (b : bytes)
| PyList (l : list pyval)
| PyDict (d : list (pystr * pyval)).

Abbreviation pydict := (list (pystr * pyval)).

(** [d.get(k)]: the first binding of [k], [None] when there is none. *)
Fixpoint dict_get (d : pydict) (k : pystr) : pyval :=
  match d with
  | [] => PyNone
  | (k', v) :: d' => if bool_decide (k' = k) then v else dict_get d' k
  end.

(** Truth value of an object ([if x:], [x or y]). *)
Definition truthy (v : pyval) : bool :=
  match v with
  | PyNone => false
  | PyBool b => b
  | PyInt z => negb (z =? 0)%Z
  | PyFloat r => negb (bool_decide (r = lit "0.0") || bool_decide (r = lit "-0.0"))
  | PyStr s => negb (bool_decide (s = []))
  | PyBytes b => match b with [] => false | _ => true end
  | PyList l => match l with [] => false | _ => true end
  | PyDict d => match d with [] => false | _ => true end
  end.

(** [x != s] for a string literal [s]: only a [str] with the same characters
    is equal to it. *)
Definition ne_str (v : pyval) (s : pystr) : bool :=
  match v with
  | PyStr s' => negb (bool_decide (s' = s))
  | _ => true
  end.

(** ** [json.dumps] with its default options *)

Definition hexdigit (d : N) : N := if d <? 10 then 48 + d else 87 + d.

(** ['\\u{0:04x}'.format(n)] *)
Definition u_escape (n : N) : pystr :=
  [92; 117; hexdigit ((n / 4096) mod 16); hexdigit ((n / 256) mod 16);
   hexdigit ((n / 16) mod 16); hexdigit (n mod 16)].

(** One character of a string under [ensure_ascii=True]. *)
Definition escape_char (c : N) : pystr :=
  if c =? 34 then [92; 34]
  else if c =? 92 then [92; 92]
  else if (32 <=? c) && (c <=? 126) then [c]
  else if c =? 8 then [92; 98]
  else if c =? 12 then [92; 102]
  else if c =? 10 then [92; 110]
  else if c =? 13 then [92; 114]
  else if c =? 9 then [92; 116]
  else if c <? 0x10000 then u_escape c
  else
    let n := c - 0x10000 in
    u_escape (N.lor 0xD800 (N.land (N.shiftr n 10) 0x3FF))
      ++ u_escape (N.lor 0xDC00 (N.land n 0x3FF)).

Definition encode_basestring_ascii (s : pystr) : pystr :=
  [34] ++ flat_map escape_char s ++ [34].

Fixpoint uint_digits (d : Decimal.uint) : pystr :=
  match d with
  | Nil => []
  | D0 d => 48 :: uint_digits d
  | D1 d => 49 :: uint_digits d
  | D2 d => 50 :: uint_digits d
  | D3 d => 51 :: uint_digits d
  | D4 d => 52 :: uint_digits d
  | D5 d => 53 :: uint_digits d
  | D6 d => 54 :: uint_digits d
  | D7 d => 55 :: uint_digits d
  | D8 d => 56 :: uint_digits d
  | D9 d => 57 :: uint_digits d
  end.

(** [int.__repr__] *)
Definition int_repr (z : Z) : pystr :=
  match Z.to_int z with
  | Decimal.Pos d => uint_digits d
  | Decimal.Neg d => 45 :: uint_digits d
  end.

(** [float.__repr__] as the encoder prints it ([allow_nan=True]). *)
Definition float_repr (r : pystr) : pystr :=
  if bool_decide (r = lit "nan") then lit "NaN"
  else if bool_decide (r = lit "inf") then lit "Infinity"
  else if bool_decide (r = lit "-inf") then lit "-Infinity"
  else r.

(** [sep.join(parts)] *)
Fixpoint join (sep : pystr) (parts : list pystr) : pystr :=
  match parts with
  | [] => []
  | [p] => p
  | p :: ps => p ++ sep ++ join sep ps
  end.

Definition not_serializable : exn :=
  TypeError (lit "Object of type bytes is not JSON serializable").

Fixpoint json_dumps (v : pyval) : outcome pystr :=
  match v with
  | PyNone => Ret (lit "null")
  | PyBool true => Ret (lit "true")
  | PyBool false => Ret (lit "false")
  | PyInt z => Ret (int_repr z)
  | PyFloat r => Ret (float_repr r)
  | PyStr s => Ret (encode_basestring_ascii s)
  | PyBytes _ => Raise not_serializable
  | PyList l =>
      let items :=
        (fix items (l : list pyval) : outcome (list pystr) :=
           match l with
           | [] => Ret []
           | x :: l' =>
               match json_dumps x with
               | Raise e => Raise e
               | Ret s =>
                   match items l' with
                   | Raise e => Raise e
                   | Ret ss => Ret (s :: ss)
                   end
               end
           end) in
      match items l with
      | Raise e => Raise e
      | Ret ss => Ret (lit "[" ++ join (lit ", ") ss ++ lit "]")
      end
  | PyDict d =>
      let items :=
        (fix items (d : pydict) : outcome (list pystr) :=
           match d with
           | [] => Ret []
           | (k, x) :: d' =>
               match json_dumps x with
               | Raise e => Raise e
               | Ret s =>
                   match items d' with
                   | Raise e => Raise e
                   | Ret ss =>
                       Ret ((encode_basestring_ascii k ++ lit ": " ++ s) :: ss)
                   end
               end
           end) in
      match items d with
      | Raise e => Raise e
      | Ret ss => Ret (lit "{" ++ join (lit ", ") ss ++ lit "}")
      end
  end.

(** [s.encode("utf-8")] *)
Definition str_encode (s : pystr) : outcome bytes :=
  match encode_utf8 s with
  | Some b => Ret b
  | None => Raise (UnicodeEncodeError (lit "surrogates not allowed"))
  end.

(** ** The outside world *)

(** The file system: the files that exist and what they hold. *)
Abbreviation fsys := (gmap pystr bytes).

(** What the caller passes in: an object whose [read()] yields the bytes of
    the upload, or raises. *)
Record file_like : Type := FileLike { read : outcome bytes }.

(** A layer opened by [fiona.open]: its [crs] attribute ([None] or a
    mapping) and what iterating over it yields: the records, in order, then
    the end of the iteration or an exception. *)
Record dataset : Type := Dataset {
  ds_crs : option pydict;
  ds_records : list pydict;
  ds_end : option exn
}.

(** [subprocess.CompletedProcess] *)
Record completed : Type := Completed {
  returncode : Z;
  stdout : bytes;
  stderr : bytes
}.

(** The collaborators whose code lies outside the repository.
    - [import_fiona], [import_transform_geom]: the exception the two import
      statements raise, if any;
    - [mkstemp]: the name [tempfile] picks, given the files that exist;
    - [fiona_open]: [fiona.open(path, layer=0)];
    - [transform_geom]: [fiona.transform.transform_geom];
    - [run]: starting the child process and waiting for it. *)
Record world : Type := World {
  import_fiona : option exn;
  import_transform_geom : option exn;
  mkstemp : fsys -> pystr;
  fiona_open : pystr -> fsys -> outcome dataset;
  transform_geom : pydict -> pydict -> pyval -> outcome pyval;
  run : list pystr -> fsys -> outcome completed
}.

(** The calls made to the outside world, in the order they happen. *)
Inductive event : Type :=
| EvImport
| EvCreate (path : pystr)
| EvWrite (path : pystr) (data : bytes)
| EvOpen (path : pystr)
| EvTransform (src dst : pydict) (geom : pyval)
| EvUnlink (path : pystr)
| EvRun (cmd : list pystr).

(** ** The monad: file system in, outcome, file system and log out *)

Record res (A : Type) : Type := Res {
  res_out : outcome A;
  res_fs : fsys;
  res_log : list event
}.
Arguments Res {A} _ _ _.
Arguments res_out {A} _.
Arguments res_fs {A} _.
Arguments res_log {A} _.

Definition M (A : Type) : Type := fsys -> res A.

Definition ret {A} (a : A) : M A := fun fs => Res (Ret a) fs [].
Definition raise {A} (e : exn) : M A := fun fs => Res (Raise e) fs [].

Definition bind {A B} (m : M A) (k : A -> M B) : M B :=
  fun fs =>
    let r := m fs in
    match res_out r with
    | Raise e => Res (Raise e) (res_fs r) (res_log r)
    | Ret a =>
        let r' := k a (res_fs r) in
        Res (res_out r') (res_fs r') (res_log r ++ res_log r')
    end.

Declare Scope py_scope.
Delimit Scope py_scope with py.
Notation "x <- m ;; k" := (bind m (fun x => k))
  (at level 100, m at next level, right associativity) : py_scope.
Notation "m ;;; k" := (bind m (fun _ => k))
  (at level 100, right associativity) : py_scope.
Local Open Scope py_scope.

Definition lift {A} (o : outcome A) : M A := fun fs => Res o fs [].
Definition emit (ev : event) : M unit := fun fs => Res (Ret tt) fs [ev].
Definition get_fs : M fsys := fun fs => Res (Ret fs) fs [].
Definition put_fs (fs' : fsys) : M unit := fun _ => Res (Ret tt) fs' [].

(** [try: m except C as e: h e], where [catches] tells the instances of
    [C]. *)
Definition try_except {A} (catches : exn -> bool) (m : M A) (h : exn -> M A)
  : M A :=
  fun fs =>
    let r := m fs in
    match res_out r with
    | Ret a => r
    | Raise e =>
        if catches e then
          let r' := h e (res_fs r) in
          Res (res_out r') (res_fs r') (res_log r ++ res_log r')
        else r
    end.

(** [try: m finally: f]: [f] runs on every exit of [m]; an exception of [f]
    replaces the outcome of [m]. *)
Definition try_finally {A} (m : M A) (f : M unit) : M A :=
  fun fs =>
    let r := m fs in
    let r' := f (res_fs r) in
    Res (match res_out r' with
         | Raise e => Raise e
         | Ret _ => res_out r
         end) (res_fs r') (res_log r ++ res_log r').

(** ** File operations *)

Definition suffix : pystr := lit ".gpkg".

(** [tmp.write(data)] followed by [tmp.flush()], for a write that goes
    through: a write that raises (a full disk, a [str] where bytes are
    expected) has no counterpart here. *)
Definition write (path : pystr) (data : bytes) : M unit :=
  fs <- get_fs ;;
  emit (EvWrite path data) ;;;
  put_fs (<[path := default [] (fs !! path) ++ data]> fs).

(** Removing a file; a missing file is a [FileNotFoundError]. *)
Definition unlink (path : pystr) : M unit :=
  fs <- get_fs ;;
  emit (EvUnlink path) ;;;
  match fs !! path with
  | Some _ => put_fs (delete path fs)
  | None => raise (FileNotFoundError path)
  end.

(** The name [tempfile] gives the file of a call started in [fs]: it ends in
    the suffix asked for. *)
Definition tmp_name (w : world) (fs : fsys) : pystr := mkstemp w fs ++ suffix.

(** [with tempfile.NamedTemporaryFile(suffix=".gpkg", delete=...) as tmp:
    body].  The file is created empty under a name ending in the suffix; on
    leaving the block, normally or not, it is closed, and removed when
    [delete] is set. *)
Definition NamedTemporaryFile {A} (w : world) (delete : bool)
  (body : pystr -> M A) : M A :=
  fs <- get_fs ;;
  let name := tmp_name w fs in
  emit (EvCreate name) ;;;
  put_fs (<[name := []]> fs) ;;;
  try_finally (body name)
    (if delete
     then fs' <- get_fs ;; put_fs (base.delete name fs')
     else ret tt).

(** ** [gpkg_to_geojson] *)

Definition TARGET : pystr := lit "epsg:4326".

(** The two import statements of the probe (lines 22-23). *)
Definition import_library (w : world) : M unit :=
  emit EvImport ;;;
  match import_fiona w with
  | Some e => raise e
  | None =>
      match import_transform_geom w with
      | Some e => raise e
      | None => ret tt
      end
  end.

(** The test of line 42: [src_crs and src_crs.get("init") != "epsg:4326"]. *)
Definition needs_reprojection (src_crs : pydict) : bool :=
  truthy (PyDict src_crs) && ne_str (dict_get src_crs (lit "init")) TARGET.

(** [rec.get("geometry")] and [rec.get("properties")] *)
Definition geometry_of (rec : pydict) : pyval := dict_get rec (lit "geometry").
Definition properties_of (rec : pydict) : pyval :=
  dict_get rec (lit "properties").

(** The target CRS handed to [transform_geom]. *)
Definition target_crs : pydict := [(lit "init", PyStr TARGET)].

(** Lines 39-46: the geometry of a record as it goes into the output. *)
Definition reproject (w : world) (src_crs : pydict) (rec : pydict) : M pyval :=
  let geom := geometry_of rec in
  if truthy geom then
    if needs_reprojection src_crs then
      try_except is_Exception
        (emit (EvTransform src_crs target_crs geom) ;;;
         lift (transform_geom w src_crs target_crs geom))
        (fun _ => ret geom)
    else ret geom
  else ret geom.

(** The dictionary of line 48. *)
Definition feature (geom props : pyval) : pyval :=
  PyDict [(lit "type", PyStr (lit "Feature"));
          (lit "geometry", geom);
          (lit "properties", props)].

(** Line 47: [rec.get("properties") or {}]. *)
Definition properties_or_empty (rec : pydict) : pyval :=
  if truthy (properties_of rec) then properties_of rec else PyDict [].

(** Lines 39-48: the body of the loop, giving the feature appended. *)
Definition feature_of (w : world) (src_crs : pydict) (rec : pydict) : M pyval :=
  geom <- reproject w src_crs rec ;;
  let props := properties_or_empty rec in
  ret (feature geom props).

(** Lines 38-48: the loop over the records the layer yields. *)
Fixpoint for_rec (w : world) (src_crs : pydict) (recs : list pydict)
  (features : list pyval) : M (list pyval) :=
  match recs with
  | [] => ret features
  | rec :: recs' =>
      f <- feature_of w src_crs rec ;;
      for_rec w src_crs recs' (features ++ [f])
  end.

(** Line 37: [src.crs or {}]. *)
Definition crs_or_empty (ds : dataset) : pydict :=
  match ds_crs ds with
  | Some c => if truthy (PyDict c) then c else []
  | None => []
  end.

(** Lines 34-48. *)
Definition read_features (w : world) (tmp_path : pystr) : M (list pyval) :=
  fs <- get_fs ;;
  emit (EvOpen tmp_path) ;;;
  src <- lift (fiona_open w tmp_path fs) ;;
  let src_crs := crs_or_empty src in
  features <- for_rec w src_crs (ds_records src) [] ;;
  match ds_end src with
  | Some e => raise e
  | None => ret features
  end.

Definition feature_collection (features : list pyval) : pyval :=
  PyDict [(lit "type", PyStr (lit "FeatureCollection"));
          (lit "features", PyList features)].

(** Lines 34-50: the body of the [try] statement. *)
Definition convert (w : world) (tmp_path : pystr) : M bytes :=
  features <- read_features w tmp_path ;;
  s <- lift (json_dumps (feature_collection features)) ;;
  lift (str_encode s).

(** Lines 29-55: the branch taken when Fiona is there. *)
Definition library_path (w : world) (file_obj : file_like) : M bytes :=
  tmp_path <- NamedTemporaryFile w false (fun tmp =>
                data <- lift (read file_obj) ;;
                write tmp data ;;;
                ret tmp) ;;
  try_finally
    (convert w tmp_path)
    (try_except is_Exception (unlink tmp_path) (fun _ => ret tt)).

(** [subprocess.run(cmd, stdout=PIPE, stderr=PIPE, check=True)] *)
Definition subprocess_run (w : world) (cmd : list pystr) : M completed :=
  fs <- get_fs ;;
  emit (EvRun cmd) ;;;
  proc <- lift (run w cmd fs) ;;
  if (returncode proc =? 0)%Z then ret proc
  else raise (CalledProcessError (returncode proc) (stdout proc) (stderr proc)).

(** Lines 63-69: the command line of the fallback. *)
Definition ogr2ogr_cmd (path : pystr) : list pystr :=
  [lit "ogr2ogr"; lit "-f"; lit "GeoJSON"; lit "/vsistdout/"; path].

(** Lines 60-74: the branch taken when Fiona is not there. *)
Definition process_path (w : world) (file_obj : file_like) : M bytes :=
  NamedTemporaryFile w true (fun tmp_in =>
    data <- lift (read file_obj) ;;
    write tmp_in data ;;;
    let cmd := ogr2ogr_cmd tmp_in in
    try_except is_CalledProcessError
      (proc <- subprocess_run w cmd ;; ret (stdout proc))
      (fun e =>
         raise (RuntimeError
                  (lit "ogr2ogr failed: " ++ decode_utf8_replace (stderr_of e))))).

Definition gpkg_to_geojson (w : world) (file_obj : file_like) : M bytes :=
  fiona <- try_except is_Exception
             (import_library w ;;; ret true)
             (fun _ => ret false) ;;
  if fiona : bool then library_path w file_obj
  else process_path w file_obj.

(** ** Predicates used in the statements *)

Definition is_ascii (s : pystr) : bool := forallb (fun c => c <? 128) s.

(** The values [json.dumps] accepts: no [bytes] anywhere, and floats whose
    [repr] is made of ASCII characters (as every [repr] of a float is). *)
Fixpoint json_safe (v : pyval) : bool :=
  match v with
  | PyNone | PyBool _ | PyInt _ | PyStr _ => true
  | PyFloat r => is_ascii r
  | PyBytes _ => false
  | PyList l =>
      (fix all (l : list pyval) : bool :=
         match l with
         | [] => true
         | x :: l' => json_safe x && all l'
         end) l
  | PyDict d =>
      (fix all (d : pydict) : bool :=
         match d with
         | [] => true
         | (_, x) :: d' => json_safe x && all d'
         end) d
  end.

(** The three ways lines 40-46 leave a geometry [g]: untouched and not handed
    to [transform_geom]; replaced by what [transform_geom] returns; or kept
    after [transform_geom] raised.  The last index is the log of the step. *)
Inductive geometry_outcome (w : world) (crs : pydict) (g : pyval)
  : pyval -> list event -> Prop :=
| geometry_skipped :
    truthy g && needs_reprojection crs = false ->
    geometry_outcome w crs g g []
| geometry_transformed (g' : pyval) :
    truthy g && needs_reprojection crs = true ->
    transform_geom w crs target_crs g = Ret g' ->
    geometry_outcome w crs g g' [EvTransform crs target_crs g]
| geometry_fallback (e : exn) :
    truthy g && needs_reprojection crs = true ->
    transform_geom w crs target_crs g = Raise e ->
    is_Exception e = true ->
    geometry_outcome w crs g g [EvTransform crs target_crs g].

(** A feature [f] made from the record [rec], all its calls being in [log]. *)
Definition made_from (w : world) (crs : pydict) (log : list event)
  (rec : pydict) (f : pyval) : Prop :=
  exists geom l,
    f = feature geom (properties_or_empty rec)
    /\ geometry_outcome w crs (geometry_of rec) geom l
    /\ incl l log.

(** The exception of the probe of lines 21-25, if any. *)
Definition import_error (w : world) : option exn :=
  match import_fiona w with
  | Some e => Some e
  | None => import_transform_geom w
  end.

(** Lines 49-50 as a function of what lines 34-48 gave. *)
Definition serialise (features : outcome (list pyval)) : outcome bytes :=
  match features with
  | Raise e => Raise e
  | Ret features =>
      match json_dumps (feature_collection features) with
      | Raise e => Raise e
      | Ret s => str_encode s
      end
  end.




(** [v[k]] for a JSON object [v] ([None] when there is no such member). *)
Definition member (v : pyval) (k : pystr) : pyval :=
  match v with
  | PyDict d => dict_get d k
  | _ => PyNone
  end.


(** Whether a log records a call to [transform_geom] on [geom]. *)
Definition transformed (log : list event) (geom : pyval) : Prop :=
  exists src dst, In (EvTransform src dst geom) log.

Definition is_EvRun (ev : event) : bool :=
  match ev with EvRun _ => true | _ => false end.

Definition is_EvTransform (ev : event) : bool :=
  match ev with EvTransform _ _ _ => true | _ => false end.

(** ** Sample worlds and uploads *)

Module Sample.

Definition point (x y : string) : pyval :=
  PyDict [(lit "type", PyStr (lit "Point"));
          (lit "coordinates", PyList [PyFloat (lit x); PyFloat (lit y)])].

(** A record with a geometry and properties. *)
Definition town : pydict :=
  [(lit "id", PyStr (lit "1"));
   (lit "geometry", point "500000.0" "4649776.22");
   (lit "properties",
    PyDict [(lit "name", PyStr (lit "Aix")); (lit "pop", PyInt 147122)])].

(** A record with a null geometry and no properties. *)
Definition bare : pydict :=
  [(lit "id", PyStr (lit "2")); (lit "geometry", PyNone)].

(** A record whose geometry has no coordinates. *)
Definition broken : pydict :=
  [(lit "id", PyStr (lit "3"));
   (lit "geometry",
    PyDict [(lit "type", PyStr (lit "Point")); (lit "coordinates", PyList [])]);
   (lit "properties", PyDict [(lit "name", PyStr (lit "Ys"))])].

Definition utm33 : pydict := [(lit "init", PyStr (lit "epsg:32633"))].
Definition wgs84 : pydict := [(lit "init", PyStr (lit "epsg:4326"))].

Definition layer (crs : option pydict) : dataset :=
  {| ds_crs := crs; ds_records := [town; bare; broken]; ds_end := None |}.

Definition upload : bytes := blit "SQLite format 3".
Definition file_obj : file_like := {| read := Ret upload |}.

Definition closed_error : exn :=
  OtherException "ValueError" (lit "I/O operation on closed file.").

(** A file object that is already closed. *)
Definition closed_file : file_like := {| read := Raise closed_error |}.

Definition driver_error : exn :=
  OtherException "fiona.errors.DriverError"
    (lit "not recognized as a supported file format.").

(** Whether the file at [path] holds the upload. *)
Definition holds_upload (fs : fsys) (path : pystr) : bool :=
  match fs !! path with
  | Some content =>
      bool_decide (map Byte.to_N content = map Byte.to_N upload)
  | None => false
  end.

(** Fiona reads the layer from any file that holds the upload. *)
Definition open_layer (crs : option pydict) (path : pystr) (fs : fsys)
  : outcome dataset :=
  if holds_upload fs path then Ret (layer crs) else Raise driver_error.

(** A reprojection that fails on geometries without coordinates. *)
Definition to_wgs84 (src dst : pydict) (g : pyval) : outcome pyval :=
  match member g (lit "coordinates") with
  | PyList (_ :: _) => Ret (point "15.0" "42.0")
  | _ => Raise (OtherException "ValueError" (lit "no coordinates"))
  end.

Definition no_ogr2ogr (cmd : list pystr) (fs : fsys) : outcome completed :=
  Raise (FileNotFoundError (lit "ogr2ogr")).

(** A world with Fiona, whose layers are in [crs]. *)
Definition with_fiona (crs : option pydict) : world :=
  {| import_fiona := None;
     import_transform_geom := None;
     mkstemp := fun _ => lit "/tmp/tmpk3v9x1";
     fiona_open := open_layer crs;
     transform_geom := to_wgs84;
     run := no_ogr2ogr |}.

(** A world with Fiona that cannot read the upload. *)
Definition unreadable : world :=
  {| import_fiona := None;
     import_transform_geom := None;
     mkstemp := fun _ => lit "/tmp/tmpk3v9x1";
     fiona_open := fun _ _ => Raise driver_error;
     transform_geom := to_wgs84;
     run := no_ogr2ogr |}.

Definition no_fiona : exn :=
  OtherException "ModuleNotFoundError" (lit "No module named 'fiona'").

(** A bytes literal written with apostrophes for quotation marks. *)
Definition quoted (s : string) : bytes :=
  map (fun b => if (Byte.to_N b =? 39)%N then x22 else b) (blit s).

Definition empty_collection : bytes :=
  quoted "{'type':'FeatureCollection','features':[]}".

(** The converter stub: it prints a document for the upload and fails on
    anything else. *)
Definition ogr2ogr (cmd : list pystr) (fs : fsys) : outcome completed :=
  match last cmd with
  | Some path =>
      if holds_upload fs path
      then Ret {| returncode := 0; stdout := empty_collection; stderr := [] |}
      else Ret {| returncode := 1; stdout := [];
                  stderr := blit "bad layer" |}
  | None => Raise (FileNotFoundError [])
  end.

(** A world without Fiona, with the converter stub. *)
Definition without_fiona : world :=
  {| import_fiona := Some no_fiona;
     import_transform_geom := None;
     mkstemp := fun _ => lit "/tmp/tmpk3v9x1";
     fiona_open := fun _ _ => Raise driver_error;
     transform_geom := to_wgs84;
     run := ogr2ogr |}.


(** A world with neither Fiona nor the [ogr2ogr] command. *)
Definition nothing_installed : world :=
  {| import_fiona := Some no_fiona;
     import_transform_geom := None;
     mkstemp := fun _ => lit "/tmp/tmpk3v9x1";
     fiona_open := fun _ _ => Raise driver_error;
     transform_geom := to_wgs84;
     run := no_ogr2ogr |}.

Definition tmp : pystr := lit "/tmp/tmpk3v9x1.gpkg".

Definition bytes_of (o : outcome bytes) : bytes :=
  match o with Ret b => b | Raise _ => [] end.

(** What the call returns for the upload, layer in UTM 33N. *)
Definition document : bytes := Eval vm_compute in
  bytes_of (res_out (gpkg_to_geojson (with_fiona (Some utm33)) file_obj ∅)).

End Sample.

(** ** Further predicates and sample worlds *)

(** Whether a value holds a [bytes] object somewhere. *)
Fixpoint contains_bytes (v : pyval) : bool :=
  match v with
  | PyNone | PyBool _ | PyInt _ | PyFloat _ | PyStr _ => false
  | PyBytes _ => true
  | PyList l =>
      (fix any (l : list pyval) : bool :=
         match l with
         | [] => false
         | x :: l' => contains_bytes x || any l'
         end) l
  | PyDict d =>
      (fix any (d : pydict) : bool :=
         match d with
         | [] => false
         | (_, x) :: d' => contains_bytes x || any d'
         end) d
  end.


(** A string Python can hold and encode: code points up to U+10FFFF, no
    surrogates. *)
Definition is_scalar (c : N) : bool := (c <=? 0x10FFFF) && negb (is_surrogate c).

(** A string literal written with apostrophes for quotation marks. *)
Definition qlit (s : string) : pystr :=
  map (fun c => if c =? 39 then 34 else c) (lit s).

(** The text of a feature, written out: the three members in the order of
    line 48, around the texts of the geometry and of the properties. *)
Definition feature_text (geometry properties : pystr) : pystr :=
  qlit "{'type': 'Feature', 'geometry': " ++ geometry
    ++ qlit ", 'properties': " ++ properties ++ lit "}".

(** The text of the document, written out, around the texts of its
    features. *)
Definition collection_text (features : list pystr) : pystr :=
  qlit "{'type': 'FeatureCollection', 'features': ["
    ++ join (lit ", ") features ++ lit "]}".

(** [json.dumps] on each element of a list, in order. *)
Fixpoint dumps_each (l : list pyval) : outcome (list pystr) :=
  match l with
  | [] => Ret []
  | x :: l' =>
      match json_dumps x with
      | Raise e => Raise e
      | Ret s =>
          match dumps_each l' with
          | Raise e => Raise e
          | Ret ss => Ret (s :: ss)
          end
      end
  end.

(** How the text of a feature relates to the record it comes from: it is
    the text of a geometry lines 40-46 leave for the record and of the
    properties of line 47, all the calls of the step being in [log]. *)
Definition text_from (w : world) (crs : pydict) (log : list event)
  (rec : pydict) (text : pystr) : Prop :=
  exists geom l g p,
    text = feature_text g p
    /\ json_dumps geom = Ret g
    /\ json_dumps (properties_or_empty rec) = Ret p
    /\ geometry_outcome w crs (geometry_of rec) geom l
    /\ incl l log.



Module Edge.

Definition interrupt : exn := NonException "KeyboardInterrupt".

(** A reprojection interrupted on geometries without coordinates. *)
Definition interrupted_transform (src dst : pydict) (g : pyval)
  : outcome pyval :=
  match member g (lit "coordinates") with
  | PyList (_ :: _) => Ret (Sample.point "15.0" "42.0")
  | _ => Raise interrupt
  end.

(** A world with Fiona that reads [ds] from any file holding the upload. *)
Definition fiona_world (ds : dataset)
  (transform : pydict -> pydict -> pyval -> outcome pyval) : world :=
  {| import_fiona := None;
     import_transform_geom := None;
     mkstemp := fun _ => lit "/tmp/tmpk3v9x1";
     fiona_open := fun path fs =>
       if Sample.holds_upload fs path then Ret ds
       else Raise Sample.driver_error;
     transform_geom := transform;
     run := Sample.no_ogr2ogr |}.

Definition utm_layer : dataset := Sample.layer (Some Sample.utm33).

(** A layer whose iteration breaks after its records. *)
Definition read_error : exn :=
  OtherException "fiona.errors.FeatureError" (lit "failed to read feature").
Definition truncated_layer : dataset :=
  {| ds_crs := Some Sample.utm33;
     ds_records := [Sample.town; Sample.bare];
     ds_end := Some read_error |}.

(** A record with a binary column, an empty geometry and one with empty
    properties of the wrong kind. *)
Definition blob : pydict :=
  [(lit "geometry", Sample.point "1.0" "2.0");
   (lit "properties", PyDict [(lit "icon", PyBytes [x89; x50; x4e; x47])])].
Definition blob_layer : dataset :=
  {| ds_crs := Some Sample.wgs84; ds_records := [Sample.town; blob];
     ds_end := None |}.

Definition hollow : pydict :=
  [(lit "geometry", PyDict []); (lit "properties", PyList [])].
Definition hollow_layer : dataset :=
  {| ds_crs := Some Sample.utm33; ds_records := [hollow; Sample.town];
     ds_end := None |}.

(** A world where [fiona] imports and [fiona.transform] does not. *)
Definition import_error_exn : exn :=
  OtherException "ImportError" (lit "cannot import name 'transform_geom'").
Definition half_installed : world :=
  {| import_fiona := None;
     import_transform_geom := Some import_error_exn;
     mkstemp := fun _ => lit "/tmp/tmpk3v9x1";
     fiona_open := fun _ _ => Ret utm_layer;
     transform_geom := Sample.to_wgs84;
     run := Sample.ogr2ogr |}.

(** A world where the import is interrupted. *)
Definition interrupted_import : world :=
  {| import_fiona := Some interrupt;
     import_transform_geom := None;
     mkstemp := fun _ => lit "/tmp/tmpk3v9x1";
     fiona_open := fun _ _ => Ret utm_layer;
     transform_geom := Sample.to_wgs84;
     run := Sample.ogr2ogr |}.

(** A converter stub that writes Latin-1 to its standard error. *)
Definition latin1_stub (cmd : list pystr) (fs : fsys) : outcome completed :=
  Ret {| returncode := 2; stdout := [];
         stderr := [x63; x61; x66; xe9; x20; xed; xa0; x80] |}.
Definition latin1_world : world :=
  {| import_fiona := Some Sample.no_fiona;
     import_transform_geom := None;
     mkstemp := fun _ => lit "/tmp/tmpk3v9x1";
     fiona_open := fun _ _ => Raise Sample.driver_error;
     transform_geom := Sample.to_wgs84;
     run := latin1_stub |}.

(** A file system where another upload is being converted. *)
Definition busy : fsys := {[ lit "/tmp/other.gpkg" := blit "other" ]}.

(** A layer whose second record has no coordinates. *)
Definition patchy_layer : dataset :=
  {| ds_crs := Some Sample.utm33;
     ds_records := [Sample.town; Sample.broken; Sample.town];
     ds_end := None |}.

(** What the call returns for the layer with the hollow record. *)
Definition hollow_document : bytes := Eval vm_compute in
  Sample.bytes_of
    (res_out (gpkg_to_geojson (fiona_world hollow_layer Sample.to_wgs84)
                Sample.file_obj ∅)).

(** A converter stub that writes UTF-8 to its standard error. *)
Definition utf8_stub (cmd : list pystr) (fs : fsys) : outcome completed :=
  Ret {| returncode := 1; stdout := [];
         stderr := [x63; x61; x66; xc3; xa9; x20; xe2; x82; xac] |}.
Definition utf8_world : world :=
  {| import_fiona := Some Sample.no_fiona;
     import_transform_geom := None;
     mkstemp := fun _ => lit "/tmp/tmpk3v9x1";
     fiona_open := fun _ _ => Raise Sample.driver_error;
     transform_geom := Sample.to_wgs84;
     run := utf8_stub |}.

(** A converter stub that writes one Latin-1 byte between ASCII bytes. *)
Definition accent_stub (cmd : list pystr) (fs : fsys) : outcome completed :=
  Ret {| returncode := 3; stdout := [];
         stderr := [x63; x61; x66; xe9; x21] |}.
Definition accent_world : world :=
  {| import_fiona := Some Sample.no_fiona;
     import_transform_geom := None;
     mkstemp := fun _ => lit "/tmp/tmpk3v9x1";
     fiona_open := fun _ _ => Raise Sample.driver_error;
     transform_geom := Sample.to_wgs84;
     run := accent_stub |}.


End Edge.

(** * Properties *)

(** ** The codecs *)

Example decode_ascii_sample :
  decode_utf8_replace (blit "bad layer") = lit "bad layer".
Proof. reflexivity. Qed.

(** An invalid start byte, a sequence cut short by an ASCII byte and one cut
    short by the end of the input each give one U+FFFD. *)
Example decode_invalid_sample :
  decode_utf8_replace [x61; xff; xe2; x82; x62; xc3; xa9; xe2; x82]
  = [0x61; REPLACEMENT; REPLACEMENT; 0x62; 0xE9; REPLACEMENT].
Proof. reflexivity. Qed.

Example encode_sample :
  encode_utf8 [0x61; 0xE9; 0x20AC; 0x1F600]
  = Some [x61; xc3; xa9; xe2; x82; xac; xf0; x9f; x98; x80].
Proof. reflexivity. Qed.

Example encode_surrogate_sample : encode_utf8 [0x61; 0xD800] = None.
Proof. reflexivity. Qed.

Example dumps_empty_collection :
  json_dumps (feature_collection [])
  = Ret (map Byte.to_N
           (Sample.quoted "{'type': 'FeatureCollection', 'features': []}")).
Proof. vm_compute. reflexivity. Qed.

Example dumps_escapes :
  json_dumps (PyList [PyStr [0x61; 10; 0xE9; 0x1F600; 0x7F]; PyFloat (lit "nan");
                      PyInt (-12); PyBool true; PyNone; PyDict []])
  = Ret (map Byte.to_N
           (Sample.quoted
              "['a\n\u00e9\ud83d\ude00\u007f', NaN, -12, true, null, {}]")).
Proof. vm_compute. reflexivity. Qed.

Example dumps_bytes : json_dumps (PyList [PyInt 1; PyBytes [x00]])
                      = Raise not_serializable.
Proof. reflexivity. Qed.

(** The document of the sample upload: the first geometry reprojected, the
    second null with empty properties, the third kept as it was. *)
Example sample_document :
  Sample.document
  = Sample.quoted
      "{'type': 'FeatureCollection', 'features': [{'type': 'Feature', 'geometry': {'type': 'Point', 'coordinates': [15.0, 42.0]}, 'properties': {'name': 'Aix', 'pop': 147122}}, {'type': 'Feature', 'geometry': null, 'properties': {}}, {'type': 'Feature', 'geometry': {'type': 'Point', 'coordinates': []}, 'properties': {'name': 'Ys'}}]}".
Proof. vm_compute. reflexivity. Qed.

Lemma is_ascii_app (a b : pystr) :
  is_ascii (a ++ b) = is_ascii a && is_ascii b.
Proof. apply forallb_app. Qed.

Lemma is_ascii_cons (c : N) (s : pystr) :
  is_ascii (c :: s) = (c <? 128) && is_ascii s.
Proof. reflexivity. Qed.

Lemma hexdigit_ascii (d : N) : d < 16 -> (hexdigit d <? 128) = true.
Proof.
  intros Hd. unfold hexdigit. apply N.ltb_lt.
  destruct (d <? 10); lia.
Qed.

Lemma u_escape_ascii (n : N) : is_ascii (u_escape n) = true.
Proof.
  unfold u_escape. rewrite !is_ascii_cons.
  rewrite !hexdigit_ascii by (apply N.mod_lt; lia).
  reflexivity.
Qed.

Lemma escape_char_ascii (c : N) : is_ascii (escape_char c) = true.
Proof.
  unfold escape_char.
  repeat match goal with
         | |- context [if ?b then _ else _] => destruct b eqn:?
         end;
    rewrite ?is_ascii_app, ?u_escape_ascii; try reflexivity.
  rewrite is_ascii_cons. simpl.
  apply andb_true_iff in Heqb1 as [_ Hle%N.leb_le].
  rewrite andb_true_r. apply N.ltb_lt. lia.
Qed.

Lemma encode_basestring_ascii_ascii (s : pystr) :
  is_ascii (encode_basestring_ascii s) = true.
Proof.
  unfold encode_basestring_ascii. rewrite !is_ascii_app.
  replace (is_ascii (flat_map escape_char s)) with true; [reflexivity|].
  symmetry. induction s as [|c s IH]; [reflexivity|].
  simpl. rewrite is_ascii_app, escape_char_ascii, IH. reflexivity.
Qed.

Lemma uint_digits_ascii (d : Decimal.uint) : is_ascii (uint_digits d) = true.
Proof. induction d; simpl; auto. Qed.

Lemma int_repr_ascii (z : Z) : is_ascii (int_repr z) = true.
Proof.
  unfold int_repr. destruct (Z.to_int z); simpl; apply uint_digits_ascii.
Qed.

Lemma float_repr_ascii (r : pystr) :
  is_ascii r = true -> is_ascii (float_repr r) = true.
Proof.
  intros Hr. unfold float_repr.
  repeat case_bool_decide; auto.
Qed.

Lemma join_ascii (sep : pystr) (parts : list pystr) :
  is_ascii sep = true ->
  Forall (fun p => is_ascii p = true) parts ->
  is_ascii (join sep parts) = true.
Proof.
  intros Hsep Hparts. induction Hparts as [|p ps Hp Hps IH]; [reflexivity|].
  destruct ps as [|q ps]; [exact Hp|].
  change (join sep (p :: q :: ps)) with (p ++ sep ++ join sep (q :: ps)).
  rewrite !is_ascii_app, Hp, Hsep, IH. reflexivity.
Qed.

(** Induction over values that reaches inside lists and dictionaries. *)
Lemma pyval_nested_ind (P : pyval -> Prop) :
  P PyNone ->
  (forall b, P (PyBool b)) ->
  (forall z, P (PyInt z)) ->
  (forall r, P (PyFloat r)) ->
  (forall s, P (PyStr s)) ->
  (forall b, P (PyBytes b)) ->
  (forall l, Forall P l -> P (PyList l)) ->
  (forall d, Forall (fun kv => P (snd kv)) d -> P (PyDict d)) ->
  forall v, P v.
Proof.
  intros HN HB HI HF HS HBy HL HD.
  fix IH 1.
  intros [ | b | z | r | s | b | l | d ];
    [ exact HN | apply HB | apply HI | apply HF | apply HS | apply HBy | | ].
  - apply HL. induction l as [|x l IHl]; constructor; [apply IH | exact IHl].
  - apply HD. induction d as [|[k x] d IHd]; constructor; [apply IH | exact IHd].
Qed.

(** [json.dumps] succeeds on every accepted value and prints ASCII only. *)
Lemma json_dumps_safe (v : pyval) :
  json_safe v = true ->
  exists s, json_dumps v = Ret s /\ is_ascii s = true.
Proof.
  induction v as [ | b | z | r | s | b | l IHl | d IHd ] using pyval_nested_ind;
    intros Hsafe.
  - eexists; split; reflexivity.
  - destruct b; eexists; split; reflexivity.
  - eexists; split; [reflexivity | apply int_repr_ascii].
  - eexists; split; [reflexivity | apply float_repr_ascii, Hsafe].
  - eexists; split; [reflexivity | apply encode_basestring_ascii_ascii].
  - discriminate.
  - cbn [json_dumps json_safe] in *.
    match goal with
    | |- context [match ?it l with _ => _ end] => set (items := it)
    end.
    assert (Hitems : exists ss, items l = Ret ss
                       /\ Forall (fun p => is_ascii p = true) ss).
    { clear -IHl Hsafe. induction IHl as [|x l Hx Hl IH]; simpl.
      - exists []; split; [reflexivity | constructor].
      - apply andb_true_iff in Hsafe as [Hx' Hl'].
        destruct (Hx Hx') as (s & -> & Hs).
        destruct (IH Hl') as (ss & Hss & Hall).
        subst items. simpl in *. rewrite Hss.
        exists (s :: ss); split; [reflexivity | constructor; assumption]. }
    destruct Hitems as (ss & -> & Hall).
    exists (lit "[" ++ join (lit ", ") ss ++ lit "]"). split; [reflexivity|].
    rewrite !is_ascii_app, join_ascii by (assumption || reflexivity).
    reflexivity.
  - cbn [json_dumps json_safe] in *.
    match goal with
    | |- context [match ?it d with _ => _ end] => set (items := it)
    end.
    assert (Hitems : exists ss, items d = Ret ss
                       /\ Forall (fun p => is_ascii p = true) ss).
    { clear -IHd Hsafe. induction IHd as [|[k x] d Hx Hd IH]; simpl.
      - exists []; split; [reflexivity | constructor].
      - apply andb_true_iff in Hsafe as [Hx' Hd'].
        destruct (Hx Hx') as (s & Hsx & Hs).
        destruct (IH Hd') as (ss & Hss & Hall).
        subst items. cbn -[lit encode_basestring_ascii] in *.
        rewrite Hsx, Hss.
        exists ((encode_basestring_ascii k ++ lit ": " ++ s) :: ss).
        split; [reflexivity|]. constructor; [|assumption].
        rewrite !is_ascii_app, encode_basestring_ascii_ascii, Hs.
        reflexivity. }
    destruct Hitems as (ss & -> & Hall).
    exists (lit "{" ++ join (lit ", ") ss ++ lit "}"). split; [reflexivity|].
    rewrite !is_ascii_app, join_ascii by (assumption || reflexivity).
    reflexivity.
Qed.

(** ASCII text encodes to itself, one byte per character. *)
Lemma encode_utf8_ascii (s : pystr) :
  is_ascii s = true -> encode_utf8 s = Some (map byte_of_N s).
Proof.
  induction s as [|c s IH]; [reflexivity|].
  rewrite is_ascii_cons. intros [Hc Hs]%andb_true_iff.
  simpl. rewrite (IH Hs). unfold encode_cp.
  apply N.ltb_lt in Hc. replace (c <? 0x80) with true; [reflexivity|].
  symmetry. apply N.ltb_lt. exact Hc.
Qed.

(** Serialising an accepted document and encoding the text never fails. *)
Lemma dumps_encode_safe (v : pyval) :
  json_safe v = true ->
  exists s out,
    json_dumps v = Ret s /\ str_encode s = Ret out /\ encode_utf8 s = Some out.
Proof.
  intros (s & Hs & Hascii)%json_dumps_safe.
  exists s, (map byte_of_N s). unfold str_encode.
  rewrite (encode_utf8_ascii s Hascii). auto.
Qed.

(** ** The loop *)

(** Neither the reprojection nor the loop reads or changes the file system:
    a run is the run on the empty file system, with the file system put
    back. *)
Lemma reproject_run (w : world) (crs rec : pydict) (fs : fsys) :
  reproject w crs rec fs
  = Res (res_out (reproject w crs rec ∅)) fs (res_log (reproject w crs rec ∅)).
Proof.
  unfold reproject.
  destruct (truthy (geometry_of rec)); [|reflexivity].
  destruct (needs_reprojection crs); [|reflexivity].
  unfold try_except, bind, emit, lift, ret; simpl.
  destruct (transform_geom w crs target_crs (geometry_of rec)) as [g|e]; simpl;
    [reflexivity|].
  destruct (is_Exception e); reflexivity.
Qed.

Lemma feature_of_run (w : world) (crs rec : pydict) (fs : fsys) :
  feature_of w crs rec fs
  = Res (res_out (feature_of w crs rec ∅)) fs (res_log (feature_of w crs rec ∅)).
Proof.
  unfold feature_of, bind.
  rewrite (reproject_run w crs rec fs). simpl.
  destruct (res_out (reproject w crs rec ∅)); simpl; [|reflexivity].
  rewrite !app_nil_r. reflexivity.
Qed.

Lemma for_rec_run (w : world) (crs : pydict) (recs : list pydict) :
  forall (acc : list pyval) (fs : fsys),
    for_rec w crs recs acc fs
    = Res (res_out (for_rec w crs recs acc ∅)) fs
          (res_log (for_rec w crs recs acc ∅)).
Proof.
  induction recs as [|rec recs IH]; intros acc fs; [reflexivity|].
  cbn [for_rec]. unfold bind.
  rewrite (feature_of_run w crs rec fs). simpl.
  destruct (res_out (feature_of w crs rec ∅)) as [f|e]; simpl; [|reflexivity].
  rewrite (IH (acc ++ [f]) fs), (IH (acc ++ [f]) (res_fs _)). reflexivity.
Qed.

Lemma reproject_ret (w : world) (crs rec : pydict) (fs : fsys) (g' : pyval) :
  res_out (reproject w crs rec fs) = Ret g' ->
  geometry_outcome w crs (geometry_of rec) g' (res_log (reproject w crs rec fs)).
Proof.
  unfold reproject.
  destruct (truthy (geometry_of rec)) eqn:Hg.
  - destruct (needs_reprojection crs) eqn:Hn.
    + unfold try_except, bind, emit, lift, ret; simpl.
      destruct (transform_geom w crs target_crs (geometry_of rec)) as [g|e] eqn:Ht;
        simpl.
      * intros [= <-]. apply geometry_transformed; [rewrite Hg, Hn|]; auto.
      * destruct (is_Exception e) eqn:He; simpl; [|discriminate].
        intros [= <-].
        eapply geometry_fallback; [rewrite Hg, Hn| |]; eauto.
    + simpl. intros [= <-]. apply geometry_skipped. rewrite Hg, Hn. reflexivity.
  - simpl. intros [= <-]. apply geometry_skipped. rewrite Hg. reflexivity.
Qed.

(** The only calls of a reprojection step are calls of [transform_geom] on
    the record's own geometry, made when the test of line 42 holds. *)
Lemma reproject_log (w : world) (crs rec : pydict) (fs : fsys) (ev : event) :
  In ev (res_log (reproject w crs rec fs)) ->
  truthy (geometry_of rec) && needs_reprojection crs = true
  /\ ev = EvTransform crs target_crs (geometry_of rec).
Proof.
  unfold reproject.
  destruct (truthy (geometry_of rec)); [|intros []].
  destruct (needs_reprojection crs); [|intros []].
  unfold try_except, bind, emit, lift, ret; simpl.
  destruct (transform_geom w crs target_crs (geometry_of rec)) as [g|e]; simpl.
  - intros [<-|[]]; auto.
  - destruct (is_Exception e); simpl; intros [<-|[]]; auto.
Qed.

(** A reprojection step fails only on what [except Exception] lets through. *)
Lemma reproject_raise (w : world) (crs rec : pydict) (fs : fsys) (e : exn) :
  res_out (reproject w crs rec fs) = Raise e ->
  transform_geom w crs target_crs (geometry_of rec) = Raise e
  /\ is_Exception e = false.
Proof.
  unfold reproject.
  destruct (truthy (geometry_of rec)); [|discriminate].
  destruct (needs_reprojection crs); [|discriminate].
  unfold try_except, bind, emit, lift, ret; simpl.
  destruct (transform_geom w crs target_crs (geometry_of rec)) as [g|e']; simpl;
    [discriminate|].
  destruct (is_Exception e') eqn:He; simpl; [discriminate|].
  intros [= <-]. auto.
Qed.

Lemma feature_of_out (w : world) (crs rec : pydict) (fs : fsys) :
  res_out (feature_of w crs rec fs)
  = match res_out (reproject w crs rec fs) with
    | Ret g => Ret (feature g (properties_or_empty rec))
    | Raise e => Raise e
    end.
Proof.
  unfold feature_of, bind.
  destruct (res_out (reproject w crs rec fs)); reflexivity.
Qed.

Lemma feature_of_log (w : world) (crs rec : pydict) (fs : fsys) :
  res_log (feature_of w crs rec fs) = res_log (reproject w crs rec fs).
Proof.
  unfold feature_of, bind.
  destruct (res_out (reproject w crs rec fs)); simpl;
    rewrite ?app_nil_r; reflexivity.
Qed.

Lemma made_from_incl (w : world) (crs : pydict) (log log' : list event)
  (rec : pydict) (f : pyval) :
  incl log log' -> made_from w crs log rec f -> made_from w crs log' rec f.
Proof.
  intros Hincl (geom & l & Hf & Hg & Hl).
  exists geom, l. repeat split; auto. eapply incl_tran; eauto.
Qed.

(** What the loop returns: the features it was given, then one feature per
    record, in the order of the records. *)
Lemma for_rec_ret (w : world) (crs : pydict) (recs : list pydict) :
  forall (acc : list pyval) (fs : fsys) (out : list pyval),
    res_out (for_rec w crs recs acc fs) = Ret out ->
    exists new,
      out = acc ++ new
      /\ Forall2 (made_from w crs (res_log (for_rec w crs recs acc fs)))
           recs new.
Proof.
  induction recs as [|rec recs IH]; intros acc fs out.
  - simpl. intros [= <-]. exists []. rewrite app_nil_r. split; constructor.
  - cbn [for_rec]. unfold bind at 1.
    pose proof (feature_of_out w crs rec fs) as Hout.
    pose proof (feature_of_log w crs rec fs) as Hlog.
    destruct (res_out (feature_of w crs rec fs)) as [f|e] eqn:Hf;
      [|discriminate].
    simpl. intros Hrest.
    destruct (IH _ _ _ Hrest) as (new & -> & Hall).
    exists (f :: new). split; [rewrite <- app_assoc; reflexivity|].
    unfold bind. rewrite Hf. simpl.
    constructor.
    + destruct (res_out (reproject w crs rec fs)) as [g|] eqn:Hg;
        [|discriminate].
      injection Hout as ->.
      exists g, (res_log (reproject w crs rec fs)).
      split; [reflexivity|]. split; [apply reproject_ret, Hg|].
      rewrite Hlog. apply incl_appl, incl_refl.
    + eapply Forall2_impl; [exact Hall|].
      intros r f'. apply made_from_incl, incl_appr, incl_refl.
Qed.

(** The only calls of the loop are calls of [transform_geom], each on the
    geometry of one of the records, made when the test of line 42 holds. *)
Lemma for_rec_log (w : world) (crs : pydict) (recs : list pydict) :
  forall (acc : list pyval) (fs : fsys) (ev : event),
    In ev (res_log (for_rec w crs recs acc fs)) ->
    exists rec,
      In rec recs
      /\ truthy (geometry_of rec) && needs_reprojection crs = true
      /\ ev = EvTransform crs target_crs (geometry_of rec).
Proof.
  induction recs as [|rec recs IH]; intros acc fs ev; [intros []|].
  cbn [for_rec]. unfold bind.
  pose proof (feature_of_log w crs rec fs) as Hlog.
  destruct (res_out (feature_of w crs rec fs)) as [f|e]; simpl.
  - rewrite in_app_iff, Hlog. intros [Hin|Hin].
    + exists rec. split; [left; reflexivity | eapply reproject_log; eauto].
    + destruct (IH _ _ _ Hin) as (r & Hr & Hrest).
      exists r. split; [right; exact Hr | exact Hrest].
  - rewrite Hlog. intros Hin.
    exists rec. split; [left; reflexivity | eapply reproject_log; eauto].
Qed.

(** The loop runs to its end unless [transform_geom] raises what
    [except Exception] lets through. *)
Lemma for_rec_total (w : world) (crs : pydict) (recs : list pydict) :
  (forall rec e, In rec recs ->
     transform_geom w crs target_crs (geometry_of rec) = Raise e ->
     is_Exception e = true) ->
  forall (acc : list pyval) (fs : fsys),
    exists out, res_out (for_rec w crs recs acc fs) = Ret out.
Proof.
  induction recs as [|rec recs IH]; intros Hexn acc fs.
  - exists acc. reflexivity.
  - cbn [for_rec]. unfold bind.
    pose proof (feature_of_out w crs rec fs) as Hout.
    destruct (res_out (reproject w crs rec fs)) as [g|e] eqn:Hg.
    + rewrite Hout. simpl. apply IH.
      intros r e Hr. apply Hexn. right. exact Hr.
    + apply reproject_raise in Hg as [Ht He].
      rewrite (Hexn rec e (or_introl eq_refl) Ht) in He. discriminate.
Qed.

(** ** Running the combinators *)

Lemma bind_Ret {A B} (m : M A) (k : A -> M B) (fs fs' : fsys) (a : A)
  (l : list event) :
  m fs = Res (Ret a) fs' l ->
  bind m k fs
  = Res (res_out (k a fs')) (res_fs (k a fs')) (l ++ res_log (k a fs')).
Proof. intros H. unfold bind. rewrite H. reflexivity. Qed.

Lemma bind_Raise {A B} (m : M A) (k : A -> M B) (fs fs' : fsys) (e : exn)
  (l : list event) :
  m fs = Res (Raise e) fs' l ->
  bind m k fs = Res (Raise e) fs' l.
Proof. intros H. unfold bind. rewrite H. reflexivity. Qed.

Lemma try_except_Ret {A} (c : exn -> bool) (m : M A) (h : exn -> M A)
  (fs fs' : fsys) (a : A) (l : list event) :
  m fs = Res (Ret a) fs' l ->
  try_except c m h fs = Res (Ret a) fs' l.
Proof. intros H. unfold try_except. rewrite H. reflexivity. Qed.

Lemma try_except_caught {A} (c : exn -> bool) (m : M A) (h : exn -> M A)
  (fs fs' : fsys) (e : exn) (l : list event) :
  m fs = Res (Raise e) fs' l ->
  c e = true ->
  try_except c m h fs
  = Res (res_out (h e fs')) (res_fs (h e fs')) (l ++ res_log (h e fs')).
Proof. intros H Hc. unfold try_except. rewrite H. simpl. rewrite Hc. reflexivity. Qed.

Lemma try_except_escapes {A} (c : exn -> bool) (m : M A) (h : exn -> M A)
  (fs fs' : fsys) (e : exn) (l : list event) :
  m fs = Res (Raise e) fs' l ->
  c e = false ->
  try_except c m h fs = Res (Raise e) fs' l.
Proof. intros H Hc. unfold try_except. rewrite H. simpl. rewrite Hc. reflexivity. Qed.

(** ** The two branches *)

Lemma import_library_run (w : world) (fs : fsys) :
  import_library w fs
  = Res (match import_error w with Some e => Raise e | None => Ret tt end)
        fs [EvImport].
Proof.
  unfold import_library, import_error, bind, emit, raise, ret; simpl.
  destruct (import_fiona w); [reflexivity|].
  destruct (import_transform_geom w); reflexivity.
Qed.

(** The probe decides the branch; nothing else does. *)
Lemma gpkg_to_geojson_run (w : world) (file_obj : file_like) (fs : fsys) :
  gpkg_to_geojson w file_obj fs
  = match import_error w with
    | None =>
        let r := library_path w file_obj fs in
        Res (res_out r) (res_fs r) (EvImport :: res_log r)
    | Some e =>
        if is_Exception e then
          let r := process_path w file_obj fs in
          Res (res_out r) (res_fs r) (EvImport :: res_log r)
        else Res (Raise e) fs [EvImport]
    end.
Proof.
  unfold gpkg_to_geojson.
  pose proof (import_library_run w fs) as Himp.
  destruct (import_error w) as [e|].
  - assert (Hm : (import_library w ;;; ret true) fs = Res (Raise e) fs [EvImport])
      by (apply bind_Raise, Himp).
    destruct (is_Exception e) eqn:He.
    + pose proof (try_except_caught is_Exception _ (fun _ => ret false)
                    _ _ _ _ Hm He) as Htry.
      rewrite (bind_Ret _ _ _ _ _ _ Htry). reflexivity.
    + pose proof (try_except_escapes is_Exception _ (fun _ => ret false)
                    _ _ _ _ Hm He) as Htry.
      rewrite (bind_Raise _ _ _ _ _ _ Htry). reflexivity.
  - assert (Hm : (import_library w ;;; ret true) fs = Res (Ret true) fs [EvImport])
      by (rewrite (bind_Ret _ _ _ _ _ _ Himp); reflexivity).
    pose proof (try_except_Ret is_Exception _ (fun _ => ret false)
                  _ _ _ _ Hm) as Htry.
    rewrite (bind_Ret _ _ _ _ _ _ Htry). reflexivity.
Qed.

Lemma read_features_run (w : world) (p : pystr) (fs : fsys) :
  read_features w p fs
  = match fiona_open w p fs with
    | Raise e => Res (Raise e) fs [EvOpen p]
    | Ret ds =>
        let r := for_rec w (crs_or_empty ds) (ds_records ds) [] fs in
        Res (match res_out r with
             | Raise e => Raise e
             | Ret features =>
                 match ds_end ds with
                 | Some e => Raise e
                 | None => Ret features
                 end
             end) fs (EvOpen p :: res_log r)
    end.
Proof.
  unfold read_features, bind, get_fs, emit, lift; simpl.
  destruct (fiona_open w p fs) as [ds|e]; simpl; [|reflexivity].
  rewrite (for_rec_run w (crs_or_empty ds) (ds_records ds) [] fs). simpl.
  destruct (res_out (for_rec w (crs_or_empty ds) (ds_records ds) [] ∅));
    simpl; [|reflexivity].
  destruct (ds_end ds); simpl; rewrite ?app_nil_r; reflexivity.
Qed.

Lemma read_features_fs (w : world) (p : pystr) (fs : fsys) :
  res_fs (read_features w p fs) = fs.
Proof.
  rewrite read_features_run. destruct (fiona_open w p fs); reflexivity.
Qed.

Lemma convert_run (w : world) (p : pystr) (fs : fsys) :
  convert w p fs
  = Res (serialise (res_out (read_features w p fs))) fs
        (res_log (read_features w p fs)).
Proof.
  unfold convert.
  pose proof (read_features_fs w p fs) as Hfs.
  destruct (read_features w p fs) as [[features|e] fs' l] eqn:Hr;
    simpl in Hfs; subst fs'.
  - rewrite (bind_Ret _ _ _ _ _ _ Hr).
    unfold serialise, bind, lift. cbn [res_out res_fs res_log].
    destruct (json_dumps (feature_collection features));
      cbn [res_out res_fs res_log]; rewrite ?app_nil_r; reflexivity.
  - rewrite (bind_Raise _ _ _ _ _ _ Hr). reflexivity.
Qed.

Lemma convert_fs (w : world) (p : pystr) (fs : fsys) :
  res_fs (convert w p fs) = fs.
Proof. rewrite convert_run. reflexivity. Qed.

Lemma NamedTemporaryFile_run {A} (w : world) (delete : bool)
  (body : pystr -> M A) (fs : fsys) :
  NamedTemporaryFile w delete body fs
  = let p := tmp_name w fs in
    let r := body p (<[p := []]> fs) in
    Res (res_out r)
        (if delete then base.delete p (res_fs r) else res_fs r)
        (EvCreate p :: res_log r).
Proof.
  unfold NamedTemporaryFile, try_finally, bind, get_fs, emit, put_fs, ret.
  cbn [res_out res_fs res_log app].
  destruct delete; cbn [res_out res_fs res_log app];
    rewrite ?app_nil_r; reflexivity.
Qed.

(** Lines 30-32: the upload is read and written to the temporary file. *)
Lemma stage_run {A} (file_obj : file_like) (p : pystr) (k : M A) (fs : fsys) :
  (data <- lift (read file_obj) ;; write p data ;;; k) fs
  = match read file_obj with
    | Raise e => Res (Raise e) fs []
    | Ret data =>
        let fs' := <[p := default [] (fs !! p) ++ data]> fs in
        Res (res_out (k fs')) (res_fs (k fs')) (EvWrite p data :: res_log (k fs'))
    end.
Proof.
  unfold bind at 1, lift. cbn [res_out res_fs res_log].
  destruct (read file_obj) as [data|e]; [|reflexivity].
  unfold write, bind, get_fs, emit, put_fs. cbn [res_out res_fs res_log app].
  reflexivity.
Qed.

Lemma staged_fs (fs : fsys) (p : pystr) (data : bytes) :
  <[p := default [] (<[p := []]> fs !! p) ++ data]> (<[p := []]> fs)
  = <[p := data]> fs.
Proof. rewrite lookup_insert_eq. simpl. apply insert_insert_eq. Qed.

(** The library branch when the upload cannot be read: the temporary file
    has been created and nothing removes it. *)
Lemma library_path_unread (w : world) (file_obj : file_like) (fs : fsys)
  (e : exn) :
  read file_obj = Raise e ->
  library_path w file_obj fs
  = Res (Raise e) (<[tmp_name w fs := []]> fs) [EvCreate (tmp_name w fs)].
Proof.
  intros Hread. unfold library_path.
  apply bind_Raise.
  rewrite NamedTemporaryFile_run. cbv zeta.
  rewrite stage_run, Hread. reflexivity.
Qed.

(** The library branch once the upload is read: the [try] body runs on the
    file system holding the temporary file, which is then removed. *)
Lemma library_path_run (w : world) (file_obj : file_like) (fs : fsys)
  (data : bytes) :
  read file_obj = Ret data ->
  let p := tmp_name w fs in
  let r := convert w p (<[p := data]> fs) in
  library_path w file_obj fs
  = Res (res_out r) (delete p fs)
        ([EvCreate p; EvWrite p data] ++ res_log r ++ [EvUnlink p]).
Proof.
  intros Hread p r. unfold library_path.
  assert (Htmp : NamedTemporaryFile w false
                   (fun tmp => data <- lift (read file_obj) ;;
                               write tmp data ;;; ret tmp) fs
                 = Res (Ret p) (<[p := data]> fs) [EvCreate p; EvWrite p data]).
  { rewrite NamedTemporaryFile_run. cbv zeta. fold p.
    rewrite stage_run, Hread. cbv zeta. rewrite staged_fs. reflexivity. }
  rewrite (bind_Ret _ _ _ _ _ _ Htmp).
  unfold try_finally. cbv zeta. fold r.
  replace (res_fs r) with (<[p := data]> fs) by (symmetry; apply convert_fs).
  assert (Hunlink : try_except is_Exception (unlink p) (fun _ => ret tt)
                      (<[p := data]> fs)
                    = Res (Ret tt) (delete p fs) [EvUnlink p]).
  { apply try_except_Ret.
    unfold unlink, bind, get_fs, emit, put_fs.
    cbn [res_out res_fs res_log app].
    rewrite lookup_insert_eq. cbn [res_out res_fs res_log app].
    rewrite delete_insert_eq. reflexivity. }
  rewrite Hunlink. cbn [res_out res_fs res_log]. reflexivity.
Qed.

Lemma subprocess_run_run (w : world) (cmd : list pystr) (fs : fsys) :
  subprocess_run w cmd fs
  = Res (match run w cmd fs with
         | Raise e => Raise e
         | Ret proc =>
             if (returncode proc =? 0)%Z then Ret proc
             else Raise (CalledProcessError (returncode proc) (stdout proc)
                           (stderr proc))
         end) fs [EvRun cmd].
Proof.
  unfold subprocess_run, bind, get_fs, emit, lift, ret, raise.
  cbn [res_out res_fs res_log app].
  destruct (run w cmd fs) as [proc|e]; cbn [res_out res_fs res_log app];
    [|reflexivity].
  destruct (returncode proc =? 0)%Z; reflexivity.
Qed.

(** Lines 70-74 as a function of what the child process did. *)
Lemma try_run_run (w : world) (cmd : list pystr) (fs : fsys) :
  try_except is_CalledProcessError
    (proc <- subprocess_run w cmd ;; ret (stdout proc))
    (fun e => raise (RuntimeError
                       (lit "ogr2ogr failed: "
                        ++ decode_utf8_replace (stderr_of e)))) fs
  = Res (match run w cmd fs with
         | Raise e =>
             if is_CalledProcessError e
             then Raise (RuntimeError
                           (lit "ogr2ogr failed: "
                            ++ decode_utf8_replace (stderr_of e)))
             else Raise e
         | Ret proc =>
             if (returncode proc =? 0)%Z then Ret (stdout proc)
             else Raise (RuntimeError
                           (lit "ogr2ogr failed: "
                            ++ decode_utf8_replace (stderr proc)))
         end) fs [EvRun cmd].
Proof.
  pose proof (subprocess_run_run w cmd fs) as Hrun.
  destruct (run w cmd fs) as [proc|e].
  - destruct (returncode proc =? 0)%Z.
    + apply try_except_Ret. rewrite (bind_Ret _ _ _ _ _ _ Hrun). reflexivity.
    + rewrite (try_except_caught _ _ _ _ _ _ _
                 (bind_Raise _ _ _ _ _ _ Hrun) eq_refl).
      reflexivity.
  - destruct (is_CalledProcessError e) eqn:He.
    + rewrite (try_except_caught _ _ _ _ _ _ _
                 (bind_Raise _ _ _ _ _ _ Hrun) He).
      reflexivity.
    + eapply try_except_escapes; [apply bind_Raise, Hrun | exact He].
Qed.

(** The process branch: whatever happens inside the [with] block, the
    temporary file is gone afterwards. *)
Lemma process_path_run (w : world) (file_obj : file_like) (fs : fsys) :
  let p := tmp_name w fs in
  process_path w file_obj fs
  = match read file_obj with
    | Raise e => Res (Raise e) (delete p fs) [EvCreate p]
    | Ret data =>
        Res (match run w (ogr2ogr_cmd p) (<[p := data]> fs) with
             | Raise e =>
                 if is_CalledProcessError e
                 then Raise (RuntimeError
                               (lit "ogr2ogr failed: "
                                ++ decode_utf8_replace (stderr_of e)))
                 else Raise e
             | Ret proc =>
                 if (returncode proc =? 0)%Z then Ret (stdout proc)
                 else Raise (RuntimeError
                               (lit "ogr2ogr failed: "
                                ++ decode_utf8_replace (stderr proc)))
             end) (delete p fs)
            [EvCreate p; EvWrite p data; EvRun (ogr2ogr_cmd p)]
    end.
Proof.
  intros p. unfold process_path.
  rewrite NamedTemporaryFile_run. cbv zeta. fold p.
  rewrite stage_run.
  destruct (read file_obj) as [data|e]; cbn [res_out res_fs res_log].
  - cbv zeta. rewrite staged_fs, try_run_run. cbn [res_out res_fs res_log].
    rewrite delete_insert_eq. reflexivity.
  - rewrite delete_insert_eq. reflexivity.
Qed.

(** ** Records and documents *)



Lemma json_safe_list (l : list pyval) :
  json_safe (PyList l) = forallb json_safe l.
Proof. induction l as [|x l IH]; [reflexivity|]. simpl in *. rewrite IH. reflexivity. Qed.

Lemma json_safe_dict_get (d : pydict) (k : pystr) :
  json_safe (PyDict d) = true -> json_safe (dict_get d k) = true.
Proof.
  induction d as [|[k' v] d IH]; [reflexivity|].
  simpl. intros [Hv Hd]%andb_true_iff.
  case_bool_decide; [exact Hv | apply IH, Hd].
Qed.

Lemma properties_or_empty_safe (rec : pydict) :
  json_safe (PyDict rec) = true -> json_safe (properties_or_empty rec) = true.
Proof.
  intros Hrec. unfold properties_or_empty, properties_of.
  destruct (truthy _); [apply json_safe_dict_get, Hrec | reflexivity].
Qed.

Lemma feature_safe (geom props : pyval) :
  json_safe geom = true -> json_safe props = true ->
  json_safe (feature geom props) = true.
Proof. intros Hg Hp. simpl. rewrite Hg, Hp. reflexivity. Qed.

Lemma feature_collection_safe (features : list pyval) :
  Forall (fun f => json_safe f = true) features ->
  json_safe (feature_collection features) = true.
Proof.
  intros Hall. unfold feature_collection.
  change (json_safe (PyList features) && true = true).
  rewrite andb_true_r, json_safe_list.
  apply forallb_forall. intros f Hf.
  rewrite Forall_forall in Hall. apply Hall, list_elem_of_In, Hf.
Qed.

(** ** The library branch *)

Section LibraryBranch.

Variables (w : world) (file_obj : file_like) (fs : fsys).
Variables (data : bytes) (ds : dataset).

Hypothesis Hlibrary : import_error w = None.
Hypothesis Hread : read file_obj = Ret data.
Hypothesis Hopen :
  fiona_open w (tmp_name w fs) (<[tmp_name w fs := data]> fs) = Ret ds.

(** The whole call, once the library is there, the upload is read and the
    layer is open. *)
Lemma library_call :
  gpkg_to_geojson w file_obj fs
  = let p := tmp_name w fs in
    let loop :=
      for_rec w (crs_or_empty ds) (ds_records ds) [] (<[p := data]> fs) in
    Res (serialise
           (match res_out loop with
            | Raise e => Raise e
            | Ret features =>
                match ds_end ds with
                | Some e => Raise e
                | None => Ret features
                end
            end))
        (delete p fs)
        (EvImport :: EvCreate p :: EvWrite p data :: EvOpen p
           :: res_log loop ++ [EvUnlink p]).
Proof.
  rewrite gpkg_to_geojson_run, Hlibrary. cbv zeta.
  rewrite (library_path_run w file_obj fs data Hread). cbv zeta.
  rewrite convert_run, read_features_run, Hopen. cbv zeta.
  reflexivity.
Qed.

(** A successful call returns the serialisation of the features of the
    loop. *)
Lemma library_call_ret (out : bytes) :
  res_out (gpkg_to_geojson w file_obj fs) = Ret out ->
  exists features s,
    res_out (for_rec w (crs_or_empty ds) (ds_records ds) []
               (<[tmp_name w fs := data]> fs)) = Ret features
    /\ ds_end ds = None
    /\ json_dumps (feature_collection features) = Ret s
    /\ encode_utf8 s = Some out.
Proof.
  rewrite library_call. cbv zeta. cbn [res_out]. unfold serialise.
  destruct (res_out (for_rec _ _ _ _ _)) as [features|e]; [|discriminate].
  destruct (ds_end ds); [discriminate|].
  destruct (json_dumps (feature_collection features)) as [s|e] eqn:Hs;
    [|discriminate].
  unfold str_encode. destruct (encode_utf8 s) as [b|] eqn:Hb; [|discriminate].
  intros [= <-]. exists features, s. repeat split; assumption.
Qed.

(** The calls to [transform_geom] of a call are those of its loop. *)
Lemma library_call_transformed (g : pyval) :
  transformed (res_log (gpkg_to_geojson w file_obj fs)) g
  <-> transformed
        (res_log (for_rec w (crs_or_empty ds) (ds_records ds) []
                    (<[tmp_name w fs := data]> fs))) g.
Proof.
  rewrite library_call. cbv zeta. cbn [res_log]. unfold transformed.
  split; intros (src & dst & Hin); exists src, dst.
  - repeat (destruct Hin as [Hin|Hin]; [discriminate|]).
    apply in_app_iff in Hin as [Hin|[Hin|[]]]; [exact Hin | discriminate].
  - do 4 right. apply in_app_iff. left. exact Hin.
Qed.

End LibraryBranch.

Section LibraryClaims.

Variables (w : world) (file_obj : file_like) (fs : fsys).
Variables (data : bytes) (ds : dataset).

Hypothesis Hlibrary : import_error w = None.
Hypothesis Hread : read file_obj = Ret data.
Hypothesis Hopen :
  fiona_open w (tmp_name w fs) (<[tmp_name w fs := data]> fs) = Ret ds.

(** The features of a loop that ran to its end, record by record. *)
Lemma loop_features (features : list pyval) :
  res_out (for_rec w (crs_or_empty ds) (ds_records ds) []
             (<[tmp_name w fs := data]> fs)) = Ret features ->
  Forall2
    (made_from w (crs_or_empty ds)
       (res_log (gpkg_to_geojson w file_obj fs)))
    (ds_records ds) features.
Proof.
  intros Hloop.
  destruct (for_rec_ret _ _ _ _ _ _ Hloop) as (new & Hnew & Hall).
  simpl in Hnew. subst new.
  eapply Forall2_impl; [exact Hall|].
  intros rec f. apply made_from_incl.
  rewrite (library_call w file_obj fs data ds Hlibrary Hread Hopen).
  cbv zeta. cbn [res_log]. intros ev Hev.
  do 4 right. apply in_app_iff. left. exact Hev.
Qed.

(** What a feature made from a record looks like when both the record and
    the results of [transform_geom] are values [json.dumps] accepts. *)
Lemma made_from_safe (log : list event) (rec : pydict) (f : pyval) :
  json_safe (PyDict rec) = true ->
  (forall g g', transform_geom w (crs_or_empty ds) target_crs g = Ret g' ->
                json_safe g' = true) ->
  made_from w (crs_or_empty ds) log rec f ->
  json_safe f = true.
Proof.
  intros Hrec Htsafe (geom & l & -> & Hg & _).
  apply feature_safe; [|apply properties_or_empty_safe, Hrec].
  destruct Hg as [ _ | g' _ Ht | e _ _ _ ].
  - apply json_safe_dict_get, Hrec.
  - eapply Htsafe, Ht.
  - apply json_safe_dict_get, Hrec.
Qed.

(** The call succeeds when the iteration ends normally, the records and
    the results of [transform_geom] are JSON values and [transform_geom]
    raises nothing that [except Exception] lets through. *)
Lemma library_success :
  ds_end ds = None ->
  Forall (fun rec => json_safe (PyDict rec) = true) (ds_records ds) ->
  (forall g g', transform_geom w (crs_or_empty ds) target_crs g = Ret g' ->
                json_safe g' = true) ->
  (forall g e, transform_geom w (crs_or_empty ds) target_crs g = Raise e ->
               is_Exception e = true) ->
  exists (features : list pyval) (s : pystr) (out : bytes),
    res_out (gpkg_to_geojson w file_obj fs) = Ret out
    /\ json_dumps (feature_collection features) = Ret s
    /\ encode_utf8 s = Some out
    /\ Forall2
         (made_from w (crs_or_empty ds)
            (res_log (gpkg_to_geojson w file_obj fs)))
         (ds_records ds) features.
Proof.
  intros Hend Hsafe Htsafe Hexn.
  destruct (for_rec_total w (crs_or_empty ds) (ds_records ds)
              (fun rec e _ => Hexn (geometry_of rec) e) []
              (<[tmp_name w fs := data]> fs)) as (features & Hloop).
  pose proof (loop_features features Hloop) as Hall.
  assert (Hfs : Forall (fun f => json_safe f = true) features).
  { clear Hloop. induction Hall as [|rec f recs fts Hf _ IH];
      [constructor|].
    inversion Hsafe as [|? ? Hrec Hrecs]; subst.
    constructor; [|apply IH, Hrecs].
    eapply made_from_safe; [exact Hrec | exact Htsafe | exact Hf]. }
  destruct (dumps_encode_safe _ (feature_collection_safe _ Hfs))
    as (s & out & Hs & Henc & Hout).
  exists features, s, out. repeat split; [ | exact Hs | exact Hout | exact Hall ].
  rewrite (library_call w file_obj fs data ds Hlibrary Hread Hopen).
  cbv zeta. cbn [res_out]. rewrite Hloop, Hend. unfold serialise.
  rewrite Hs. exact Henc.
Qed.

(** A call that returns has run its loop to the end and serialised the
    features. *)
Lemma library_returned (out : bytes) :
  res_out (gpkg_to_geojson w file_obj fs) = Ret out ->
  exists (features : list pyval) (s : pystr),
    json_dumps (feature_collection features) = Ret s
    /\ encode_utf8 s = Some out
    /\ Forall2
         (made_from w (crs_or_empty ds)
            (res_log (gpkg_to_geojson w file_obj fs)))
         (ds_records ds) features.
Proof.
  intros Hok.
  destruct (library_call_ret w file_obj fs data ds Hlibrary Hread Hopen
              out Hok) as (features & s & Hloop & _ & Hs & Hout).
  exists features, s. repeat split; [exact Hs | exact Hout |].
  apply loop_features, Hloop.
Qed.

(** Every call of [transform_geom] is on a geometry that is true, under a
    CRS that passes the test of line 42. *)
Lemma transformed_inv (g : pyval) :
  transformed (res_log (gpkg_to_geojson w file_obj fs)) g ->
  truthy g = true /\ needs_reprojection (crs_or_empty ds) = true.
Proof.
  intros Ht.
  apply (library_call_transformed w file_obj fs data ds Hlibrary Hread Hopen)
    in Ht.
  destruct Ht as (src & dst & Hin).
  apply for_rec_log in Hin as (rec & _ & Hcond & [= _ _ ->]).
  apply andb_true_iff in Hcond. exact Hcond.
Qed.

(** A feature whose record passes both tests had its geometry handed to
    [transform_geom]; one whose record fails either keeps the geometry. *)
Lemma made_from_transformed (log : list event) (rec : pydict) (f : pyval) :
  made_from w (crs_or_empty ds) log rec f ->
  truthy (geometry_of rec) && needs_reprojection (crs_or_empty ds) = true ->
  transformed log (geometry_of rec).
Proof.
  intros (geom & l & _ & Hg & Hl) Hcond.
  destruct Hg as [ Hskip | g' _ _ | e _ _ _ ].
  - rewrite Hskip in Hcond. discriminate.
  - exists (crs_or_empty ds), target_crs. apply Hl. left. reflexivity.
  - exists (crs_or_empty ds), target_crs. apply Hl. left. reflexivity.
Qed.

Lemma made_from_skipped (log : list event) (rec : pydict) (f : pyval) :
  made_from w (crs_or_empty ds) log rec f ->
  truthy (geometry_of rec) && needs_reprojection (crs_or_empty ds) = false ->
  f = feature (geometry_of rec) (properties_or_empty rec).
Proof.
  intros (geom & l & -> & Hg & _) Hcond.
  destruct Hg as [ _ | g' Hyes _ | e Hyes _ _ ];
    [reflexivity | rewrite Hyes in Hcond; discriminate | reflexivity].
Qed.



End LibraryClaims.

(** ** The process branch *)

Section ProcessClaims.

Variables (w : world) (file_obj : file_like) (fs : fsys).
Variables (absent : exn) (data : bytes) (proc : completed).

Hypothesis Habsent : import_error w = Some absent.
Hypothesis Hcaught : is_Exception absent = true.
Hypothesis Hread : read file_obj = Ret data.
Hypothesis Hrun :
  run w (ogr2ogr_cmd (tmp_name w fs)) (<[tmp_name w fs := data]> fs)
  = Ret proc.

Lemma process_call :
  gpkg_to_geojson w file_obj fs
  = Res (if (returncode proc =? 0)%Z then Ret (stdout proc)
         else Raise (RuntimeError
                       (lit "ogr2ogr failed: "
                        ++ decode_utf8_replace (stderr proc))))
        (delete (tmp_name w fs) fs)
        [EvImport; EvCreate (tmp_name w fs); EvWrite (tmp_name w fs) data;
         EvRun (ogr2ogr_cmd (tmp_name w fs))].
Proof.
  rewrite gpkg_to_geojson_run, Habsent, Hcaught. cbv zeta.
  rewrite process_path_run. cbv zeta. rewrite Hread, Hrun. reflexivity.
Qed.

(** C7. Without the library, when the converter exits with status zero
    the call returns the bytes of its standard output as they are. *)
Theorem process_success_returns_stdout :
  returncode proc = 0%Z ->
  res_out (gpkg_to_geojson w file_obj fs) = Ret (stdout proc).
Proof.
  intros Hzero. rewrite process_call, Hzero. reflexivity.
Qed.

End ProcessClaims.


(** ** Choice of the branch *)

(** The calls the library branch makes: never the import, never a child
    process. *)
Lemma library_path_log (w : world) (file_obj : file_like) (fs : fsys)
  (ev : event) :
  In ev (res_log (library_path w file_obj fs)) ->
  ev <> EvImport /\ is_EvRun ev = false.
Proof.
  destruct (read file_obj) as [data|e] eqn:Hread.
  - rewrite (library_path_run w file_obj fs data Hread). cbv zeta.
    cbn [res_log]. rewrite convert_run, read_features_run. cbn [res_log].
    intros Hin.
    apply in_app_iff in Hin as [[<-|[<-|[]]]|Hin]; [split; easy ..|].
    apply in_app_iff in Hin as [Hin|[<-|[]]]; [|split; easy].
    destruct (fiona_open _ _ _) as [ds|e]; cbn [res_log] in Hin.
    + destruct Hin as [<-|Hin]; [split; easy|].
      apply for_rec_log in Hin as (rec & _ & _ & ->). split; easy.
    + destruct Hin as [<-|[]]. split; easy.
  - rewrite (library_path_unread w file_obj fs e Hread). cbn [res_log].
    intros [<-|[]]. split; easy.
Qed.

(** The calls the process branch makes: never the import, never the
    library. *)
Lemma process_path_log (w : world) (file_obj : file_like) (fs : fsys)
  (ev : event) :
  In ev (res_log (process_path w file_obj fs)) ->
  ev <> EvImport /\ is_EvTransform ev = false /\ ev <> EvOpen (tmp_name w fs).
Proof.
  rewrite process_path_run. cbv zeta.
  destruct (read file_obj) as [data|e]; cbn [res_log].
  - intros [<-|[<-|[<-|[]]]]; repeat split; easy.
  - intros [<-|[]]; repeat split; easy.
Qed.

(** C6. Every call starts with the import of the library and imports
    once.  When the import succeeds the call is the library branch: its
    outcome, failure included, is that of the library branch, and no child
    process is started.  A child process is started only in calls whose
    import raised; and when the import raises an [Exception] the call is
    the process branch. *)
Theorem library_first_no_fallback (w : world) (file_obj : file_like)
  (fs : fsys) :
  (exists l,
     res_log (gpkg_to_geojson w file_obj fs) = EvImport :: l
     /\ ~ In EvImport l)
  /\ (import_error w = None ->
      res_out (gpkg_to_geojson w file_obj fs)
      = res_out (library_path w file_obj fs)
      /\ (forall e, res_out (library_path w file_obj fs) = Raise e ->
                    res_out (gpkg_to_geojson w file_obj fs) = Raise e)
      /\ forall cmd, ~ In (EvRun cmd) (res_log (gpkg_to_geojson w file_obj fs)))
  /\ (forall cmd,
        In (EvRun cmd) (res_log (gpkg_to_geojson w file_obj fs)) ->
        exists e, import_error w = Some e /\ is_Exception e = true)
  /\ (forall e,
        import_error w = Some e -> is_Exception e = true ->
        res_out (gpkg_to_geojson w file_obj fs)
        = res_out (process_path w file_obj fs)
        /\ forall ev, In ev (res_log (gpkg_to_geojson w file_obj fs)) ->
                      is_EvTransform ev = false
                      /\ ev <> EvOpen (tmp_name w fs)).
Proof.
  rewrite gpkg_to_geojson_run.
  destruct (import_error w) as [e|] eqn:Himport.
  - destruct (is_Exception e) eqn:He; cbv zeta; cbn [res_out res_log].
    + split; [|split; [discriminate|split]].
      * eexists. split; [reflexivity|].
        intros Hin. apply process_path_log in Hin as [Hne _]. congruence.
      * intros cmd _. exists e. auto.
      * intros e' [= <-] _. split; [reflexivity|].
        intros ev [<-|Hin]; [split; easy|].
        apply process_path_log in Hin as (_ & Ht & Ho). auto.
    + split; [|split; [discriminate|split]].
      * exists []. split; [reflexivity | intros []].
      * intros cmd [[=]|[]].
      * intros e' [= <-] He'. congruence.
  - cbv zeta; cbn [res_out res_log].
    split; [|split; [|split]].
    + eexists. split; [reflexivity|].
      intros Hin. apply library_path_log in Hin as [Hne _]. congruence.
    + intros _. split; [reflexivity|]. split; [auto|].
      intros cmd [[=]|Hin].
      apply library_path_log in Hin as [_ Hrun]. discriminate.
    + intros cmd [[=]|Hin].
      apply library_path_log in Hin as [_ Hrun]. discriminate.
    + intros e [=].
Qed.

(** ** Determinism *)

(** C9. In a world where the library and the converter read nothing but
    the content of the file they are given, two calls on uploads that read
    as the same bytes end the same way, with the same bytes when they
    return, whatever files exist at the time of each call and whatever
    names the temporary files get. *)
Theorem same_bytes_same_output (w : world) (f1 f2 : file_like)
  (fs1 fs2 : fsys) :
  read f1 = read f2 ->
  (forall p1 p2 (s1 s2 : fsys),
     s1 !! p1 = s2 !! p2 -> fiona_open w p1 s1 = fiona_open w p2 s2) ->
  (forall p1 p2 (s1 s2 : fsys),
     s1 !! p1 = s2 !! p2 ->
     run w (ogr2ogr_cmd p1) s1 = run w (ogr2ogr_cmd p2) s2) ->
  res_out (gpkg_to_geojson w f1 fs1) = res_out (gpkg_to_geojson w f2 fs2).
Proof.
  intros Hsame Hopen Hrun.
  rewrite !gpkg_to_geojson_run.
  destruct (import_error w) as [e|].
  - destruct (is_Exception e); [|reflexivity].
    cbv zeta; cbn [res_out]. rewrite !process_path_run. cbv zeta.
    rewrite <- Hsame.
    destruct (read f1) as [data|e']; [|reflexivity]. cbn [res_out].
    rewrite (Hrun (tmp_name w fs1) (tmp_name w fs2)
               (<[tmp_name w fs1 := data]> fs1)
               (<[tmp_name w fs2 := data]> fs2));
      [reflexivity | rewrite !lookup_insert_eq; reflexivity].
  - cbv zeta; cbn [res_out].
    destruct (read f1) as [data|e'] eqn:Hread1.
    + rewrite (library_path_run w f1 fs1 data Hread1).
      rewrite (library_path_run w f2 fs2 data) by congruence.
      cbv zeta; cbn [res_out].
      rewrite !convert_run. cbn [res_out]. f_equal.
      rewrite !read_features_run.
      rewrite (Hopen (tmp_name w fs1) (tmp_name w fs2)
                 (<[tmp_name w fs1 := data]> fs1)
                 (<[tmp_name w fs2 := data]> fs2))
        by (rewrite !lookup_insert_eq; reflexivity).
      destruct (fiona_open w (tmp_name w fs2) _) as [ds|e'']; [|reflexivity].
      cbv zeta; cbn [res_out].
      rewrite (for_rec_run w _ _ _ (<[tmp_name w fs1 := data]> fs1)).
      rewrite (for_rec_run w _ _ _ (<[tmp_name w fs2 := data]> fs2)).
      reflexivity.
    + rewrite (library_path_unread w f1 fs1 e' Hread1).
      rewrite (library_path_unread w f2 fs2 e') by congruence.
      reflexivity.
Qed.

(** ** Failures and the temporary file *)

(** What Fiona raises when it opens the file reaches the caller as it is. *)
Lemma library_open_error (w : world) (file_obj : file_like) (fs : fsys)
  (data : bytes) (e : exn) :
  import_error w = None ->
  read file_obj = Ret data ->
  fiona_open w (tmp_name w fs) (<[tmp_name w fs := data]> fs) = Raise e ->
  res_out (gpkg_to_geojson w file_obj fs) = Raise e.
Proof.
  intros Hlibrary Hread Hopen.
  rewrite gpkg_to_geojson_run, Hlibrary. cbv zeta.
  rewrite (library_path_run w file_obj fs data Hread). cbv zeta.
  rewrite convert_run, read_features_run, Hopen. reflexivity.
Qed.

(** C2 (the code departs from it). With Fiona installed, an upload Fiona
    cannot open makes the call raise Fiona's own [DriverError], not a
    [RuntimeError]; with neither Fiona nor [ogr2ogr] installed the call
    raises the [FileNotFoundError] of the failed start of the process. *)
Theorem library_error_escapes_unwrapped :
  res_out (gpkg_to_geojson Sample.unreadable Sample.file_obj ∅)
  = Raise Sample.driver_error
  /\ is_RuntimeError Sample.driver_error = false
  /\ res_out (gpkg_to_geojson Sample.nothing_installed Sample.file_obj ∅)
     = Raise (FileNotFoundError (lit "ogr2ogr"))
  /\ is_RuntimeError (FileNotFoundError (lit "ogr2ogr")) = false.
Proof. repeat split; vm_compute; reflexivity. Qed.

(** Except when the library is there and the upload cannot be read, a call
    leaves the file system as it found it: the temporary file, whose name
    was free, is gone. *)
Lemma temporary_file_removed (w : world) (file_obj : file_like) (fs : fsys) :
  fs !! tmp_name w fs = None ->
  (import_error w = None -> exists data, read file_obj = Ret data) ->
  res_fs (gpkg_to_geojson w file_obj fs) = fs.
Proof.
  intros Hfresh Hcase. rewrite gpkg_to_geojson_run.
  destruct (import_error w) as [e|] eqn:Himport.
  - destruct (is_Exception e); [|reflexivity].
    cbv zeta; cbn [res_fs]. rewrite process_path_run. cbv zeta.
    destruct (read file_obj); cbn [res_fs]; apply delete_id, Hfresh.
  - destruct (Hcase eq_refl) as (data & Hread).
    cbv zeta; cbn [res_fs].
    rewrite (library_path_run w file_obj fs data Hread). cbv zeta.
    cbn [res_fs]. apply delete_id, Hfresh.
Qed.

(** When the library is there and the upload cannot be read, the call
    raises what [read] raised and the temporary file stays. *)
Lemma temporary_file_leaked (w : world) (file_obj : file_like) (fs : fsys)
  (e : exn) :
  import_error w = None ->
  read file_obj = Raise e ->
  res_out (gpkg_to_geojson w file_obj fs) = Raise e
  /\ res_fs (gpkg_to_geojson w file_obj fs) = <[tmp_name w fs := []]> fs
  /\ ~ In (EvUnlink (tmp_name w fs)) (res_log (gpkg_to_geojson w file_obj fs)).
Proof.
  intros Hlibrary Hread.
  rewrite gpkg_to_geojson_run, Hlibrary. cbv zeta.
  rewrite (library_path_unread w file_obj fs e Hread).
  cbn [res_out res_fs res_log]. repeat split.
  intros [[=]|[[=]|[]]].
Qed.

(** C4 (the code departs from it). With Fiona installed and a file object
    whose [read] raises, the call creates the temporary file, raises, and
    returns without removing it: the file, which did not exist before the
    call, exists after it, and no removal was attempted. *)
Theorem temporary_file_left_behind :
  (∅ : fsys) !! Sample.tmp = None
  /\ res_log (gpkg_to_geojson (Sample.with_fiona None) Sample.closed_file ∅)
     = [EvImport; EvCreate Sample.tmp]
  /\ res_out (gpkg_to_geojson (Sample.with_fiona None) Sample.closed_file ∅)
     = Raise Sample.closed_error
  /\ res_fs (gpkg_to_geojson (Sample.with_fiona None) Sample.closed_file ∅)
       !! Sample.tmp = Some [].
Proof. repeat split; vm_compute; reflexivity. Qed.

(** ** The statements at the sample worlds *)

Lemma to_wgs84_safe (src dst : pydict) (g g' : pyval) :
  Sample.to_wgs84 src dst g = Ret g' -> json_safe g' = true.
Proof.
  unfold Sample.to_wgs84.
  destruct (member g (lit "coordinates")) as [ | | | | | |[|x l]| ];
    try discriminate.
  intros [= <-]. reflexivity.
Qed.

Lemma to_wgs84_exception (src dst : pydict) (g : pyval) (e : exn) :
  Sample.to_wgs84 src dst g = Raise e -> is_Exception e = true.
Proof.
  unfold Sample.to_wgs84.
  destruct (member g (lit "coordinates")) as [ | | | | | |[|x l]| ];
    try discriminate; intros [= <-]; reflexivity.
Qed.

Lemma sample_records_safe (crs : option pydict) :
  Forall (fun rec => json_safe (PyDict rec) = true)
    (ds_records (Sample.layer crs)).
Proof. repeat constructor. Qed.

Lemma sample_open (crs : option pydict) :
  fiona_open (Sample.with_fiona crs) (tmp_name (Sample.with_fiona crs) ∅)
    (<[tmp_name (Sample.with_fiona crs) ∅ := Sample.upload]> ∅)
  = Ret (Sample.layer crs).
Proof. vm_compute. reflexivity. Qed.

Lemma sample_returns :
  res_out (gpkg_to_geojson (Sample.with_fiona (Some Sample.utm33))
             Sample.file_obj ∅) = Ret Sample.document.
Proof. vm_compute. reflexivity. Qed.


Lemma process_success_returns_stdout_witness :
  res_out (gpkg_to_geojson Sample.without_fiona Sample.file_obj ∅)
  = Ret Sample.empty_collection.
Proof.
  apply (process_success_returns_stdout
           Sample.without_fiona Sample.file_obj ∅ Sample.no_fiona Sample.upload
           {| returncode := 0; stdout := Sample.empty_collection;
              stderr := [] |}).
  - reflexivity.
  - reflexivity.
  - reflexivity.
  - vm_compute. reflexivity.
  - reflexivity.
Defined.

Lemma sample_open_by_content (crs : option pydict) (p1 p2 : pystr)
  (s1 s2 : fsys) :
  s1 !! p1 = s2 !! p2 ->
  fiona_open (Sample.with_fiona crs) p1 s1
  = fiona_open (Sample.with_fiona crs) p2 s2.
Proof.
  intros Hsame. simpl. unfold Sample.open_layer, Sample.holds_upload.
  rewrite Hsame. reflexivity.
Qed.

Lemma sample_run_by_content (crs : option pydict) (p1 p2 : pystr)
  (s1 s2 : fsys) :
  s1 !! p1 = s2 !! p2 ->
  run (Sample.with_fiona crs) (ogr2ogr_cmd p1) s1
  = run (Sample.with_fiona crs) (ogr2ogr_cmd p2) s2.
Proof. reflexivity. Qed.

(** The second of two calls in a row, on an object that reads as the same
    upload, returns what the first returned. *)
Lemma same_bytes_same_output_witness :
  res_out (gpkg_to_geojson (Sample.with_fiona (Some Sample.utm33))
             Sample.file_obj ∅)
  = res_out (gpkg_to_geojson (Sample.with_fiona (Some Sample.utm33))
               Sample.file_obj
               (res_fs (gpkg_to_geojson (Sample.with_fiona (Some Sample.utm33))
                          Sample.file_obj ∅))).
Proof.
  apply (same_bytes_same_output
           (Sample.with_fiona (Some Sample.utm33))
           Sample.file_obj Sample.file_obj).
  - reflexivity.
  - apply sample_open_by_content.
  - apply sample_run_by_content.
Defined.

(** * Further properties of [gpkg_to_geojson] *)

(** ** The file system around a call *)

(** Where a call leaves the file system, branch by branch. *)
Lemma res_fs_cases (w : world) (file_obj : file_like) (fs : fsys) :
  res_fs (gpkg_to_geojson w file_obj fs) = fs
  \/ res_fs (gpkg_to_geojson w file_obj fs) = delete (tmp_name w fs) fs
  \/ res_fs (gpkg_to_geojson w file_obj fs) = <[tmp_name w fs := []]> fs.
Proof.
  rewrite gpkg_to_geojson_run.
  destruct (import_error w) as [e|].
  - destruct (is_Exception e); [|left; reflexivity].
    right; left. cbv zeta; cbn [res_fs]. rewrite process_path_run. cbv zeta.
    destruct (read file_obj); reflexivity.
  - cbv zeta; cbn [res_fs].
    destruct (read file_obj) as [data|e] eqn:Hread.
    + right; left. rewrite (library_path_run w file_obj fs data Hread).
      reflexivity.
    + right; right. rewrite (library_path_unread w file_obj fs e Hread).
      reflexivity.
Qed.

(** X1. Whatever the branch and however the call ends, every file other
    than the temporary file of the call is after the call what it was
    before: same existence, same content. *)
Theorem other_files_untouched (w : world) (file_obj : file_like) (fs : fsys)
  (path : pystr) :
  path <> tmp_name w fs ->
  res_fs (gpkg_to_geojson w file_obj fs) !! path = fs !! path.
Proof.
  intros Hother.
  destruct (res_fs_cases w file_obj fs) as [-> | [-> | ->]].
  - reflexivity.
  - apply lookup_delete_ne. congruence.
  - apply lookup_insert_ne. congruence.
Qed.

Lemma other_files_untouched_witness :
  res_fs (gpkg_to_geojson (Sample.with_fiona (Some Sample.utm33))
            Sample.file_obj Edge.busy) !! lit "/tmp/other.gpkg"
  = Edge.busy !! lit "/tmp/other.gpkg".
Proof.
  apply (other_files_untouched (Sample.with_fiona (Some Sample.utm33))
           Sample.file_obj Edge.busy (lit "/tmp/other.gpkg")).
  vm_compute. discriminate.
Defined.

(** ** Failures of the process branch *)

Section ProcessFailures.

Variables (w : world) (file_obj : file_like) (fs : fsys) (absent : exn).

Hypothesis Habsent : import_error w = Some absent.
Hypothesis Hcaught : is_Exception absent = true.

(** X3. Without the library, when reading the upload raises, the call
    raises the same exception, starts no process, and the temporary file it
    had created is gone. *)
Theorem process_read_failure_cleans_up (e : exn) :
  read file_obj = Raise e ->
  res_out (gpkg_to_geojson w file_obj fs) = Raise e
  /\ res_log (gpkg_to_geojson w file_obj fs)
     = [EvImport; EvCreate (tmp_name w fs)]
  /\ res_fs (gpkg_to_geojson w file_obj fs) !! tmp_name w fs = None.
Proof.
  intros Hread.
  rewrite gpkg_to_geojson_run, Habsent, Hcaught. cbv zeta.
  rewrite process_path_run. cbv zeta. rewrite Hread.
  cbn [res_out res_fs res_log]. repeat split. apply lookup_delete_eq.
Qed.

(** X4. Without the library, an exception of [subprocess.run] that is
    not a [CalledProcessError] (the command is not installed, say) reaches
    the caller as it is, not as a [RuntimeError]; the temporary file is
    gone all the same. *)
Theorem spawn_error_escapes (data : bytes) (e : exn) :
  read file_obj = Ret data ->
  run w (ogr2ogr_cmd (tmp_name w fs)) (<[tmp_name w fs := data]> fs)
  = Raise e ->
  is_CalledProcessError e = false ->
  res_out (gpkg_to_geojson w file_obj fs) = Raise e
  /\ res_fs (gpkg_to_geojson w file_obj fs) !! tmp_name w fs = None.
Proof.
  intros Hread Hrun Hother.
  rewrite gpkg_to_geojson_run, Habsent, Hcaught. cbv zeta.
  rewrite process_path_run. cbv zeta. rewrite Hread, Hrun, Hother.
  cbn [res_out res_fs]. split; [reflexivity | apply lookup_delete_eq].
Qed.

(** X5. Without the library, the process is started once, after the
    upload is written, with the command [ogr2ogr -f GeoJSON /vsistdout/]
    followed by the name of the temporary file, a name that ends in
    [.gpkg]; this is all the call does besides the import. *)
Theorem process_branch_calls (data : bytes) :
  read file_obj = Ret data ->
  res_log (gpkg_to_geojson w file_obj fs)
  = [EvImport; EvCreate (tmp_name w fs); EvWrite (tmp_name w fs) data;
     EvRun [lit "ogr2ogr"; lit "-f"; lit "GeoJSON"; lit "/vsistdout/";
            tmp_name w fs]]
  /\ exists stem, tmp_name w fs = stem ++ lit ".gpkg".
Proof.
  intros Hread.
  rewrite gpkg_to_geojson_run, Habsent, Hcaught. cbv zeta.
  rewrite process_path_run. cbv zeta. rewrite Hread.
  cbn [res_log]. split; [reflexivity|].
  exists (mkstemp w fs). reflexivity.
Qed.

End ProcessFailures.

Lemma process_read_failure_cleans_up_witness :
  res_out (gpkg_to_geojson Sample.without_fiona Sample.closed_file ∅)
  = Raise Sample.closed_error
  /\ res_log (gpkg_to_geojson Sample.without_fiona Sample.closed_file ∅)
     = [EvImport; EvCreate (tmp_name Sample.without_fiona ∅)]
  /\ res_fs (gpkg_to_geojson Sample.without_fiona Sample.closed_file ∅)
       !! tmp_name Sample.without_fiona ∅ = None.
Proof.
  apply (process_read_failure_cleans_up Sample.without_fiona
           Sample.closed_file ∅ Sample.no_fiona).
  - reflexivity.
  - reflexivity.
  - reflexivity.
Defined.

Lemma spawn_error_escapes_witness :
  res_out (gpkg_to_geojson Sample.nothing_installed Sample.file_obj ∅)
  = Raise (FileNotFoundError (lit "ogr2ogr"))
  /\ res_fs (gpkg_to_geojson Sample.nothing_installed Sample.file_obj ∅)
       !! tmp_name Sample.nothing_installed ∅ = None.
Proof.
  apply (spawn_error_escapes Sample.nothing_installed Sample.file_obj ∅
           Sample.no_fiona eq_refl eq_refl Sample.upload).
  - reflexivity.
  - reflexivity.
  - reflexivity.
Defined.

Lemma process_branch_calls_witness :
  res_log (gpkg_to_geojson Sample.without_fiona Sample.file_obj ∅)
  = [EvImport; EvCreate (tmp_name Sample.without_fiona ∅);
     EvWrite (tmp_name Sample.without_fiona ∅) Sample.upload;
     EvRun [lit "ogr2ogr"; lit "-f"; lit "GeoJSON"; lit "/vsistdout/";
            tmp_name Sample.without_fiona ∅]]
  /\ exists stem, tmp_name Sample.without_fiona ∅ = stem ++ lit ".gpkg".
Proof.
  apply (process_branch_calls Sample.without_fiona Sample.file_obj ∅
           Sample.no_fiona eq_refl eq_refl Sample.upload).
  reflexivity.
Defined.

(** ** The loop, call by call *)

Lemma reproject_out (w : world) (crs rec : pydict) (fs : fsys) :
  res_out (reproject w crs rec fs)
  = if truthy (geometry_of rec) && needs_reprojection crs then
      match transform_geom w crs target_crs (geometry_of rec) with
      | Ret g => Ret g
      | Raise e => if is_Exception e then Ret (geometry_of rec) else Raise e
      end
    else Ret (geometry_of rec).
Proof.
  unfold reproject.
  destruct (truthy (geometry_of rec)); [|reflexivity].
  destruct (needs_reprojection crs); [|reflexivity].
  unfold try_except, bind, emit, lift, ret; simpl.
  destruct (transform_geom w crs target_crs (geometry_of rec)) as [g|e]; simpl;
    [reflexivity|].
  destruct (is_Exception e); reflexivity.
Qed.

Lemma reproject_calls (w : world) (crs rec : pydict) (fs : fsys) :
  res_log (reproject w crs rec fs)
  = if truthy (geometry_of rec) && needs_reprojection crs
    then [EvTransform crs target_crs (geometry_of rec)]
    else [].
Proof.
  unfold reproject.
  destruct (truthy (geometry_of rec)); [|reflexivity].
  destruct (needs_reprojection crs); [|reflexivity].
  unfold try_except, bind, emit, lift, ret; simpl.
  destruct (transform_geom w crs target_crs (geometry_of rec)) as [g|e]; simpl;
    [reflexivity|].
  destruct (is_Exception e); reflexivity.
Qed.


(** A loop interrupted at a record: what was raised gets out, and the calls
    stop there. *)
Lemma for_rec_interrupted (w : world) (crs : pydict) (pre post : list pydict)
  (rec : pydict) (e : exn) :
  (forall r e', In r pre ->
     transform_geom w crs target_crs (geometry_of r) = Raise e' ->
     is_Exception e' = true) ->
  truthy (geometry_of rec) = true ->
  needs_reprojection crs = true ->
  transform_geom w crs target_crs (geometry_of rec) = Raise e ->
  is_Exception e = false ->
  forall (acc : list pyval) (fs : fsys),
    res_out (for_rec w crs (pre ++ rec :: post) acc fs) = Raise e
    /\ res_log (for_rec w crs (pre ++ rec :: post) acc fs)
       = map (fun r => EvTransform crs target_crs (geometry_of r))
           (List.filter (fun r => truthy (geometry_of r)) (pre ++ [rec])).
Proof.
  intros Hpre Hg Hn Ht He.
  induction pre as [|r pre IH]; intros acc fs.
  - cbn [app for_rec List.filter]. unfold bind.
    pose proof (feature_of_out w crs rec fs) as Hout.
    pose proof (feature_of_log w crs rec fs) as Hlog.
    rewrite reproject_out, Hg, Hn, Ht, He in Hout. cbn [andb] in Hout.
    rewrite reproject_calls, Hg, Hn in Hlog. cbn [andb] in Hlog.
    rewrite Hout, Hg. cbn [res_out res_log]. rewrite Hlog. split; reflexivity.
  - assert (Hrest : forall r' e', In r' pre ->
              transform_geom w crs target_crs (geometry_of r') = Raise e' ->
              is_Exception e' = true)
      by (intros r' e' Hr; apply Hpre; right; exact Hr).
    cbn [app for_rec List.filter]. unfold bind.
    pose proof (feature_of_out w crs r fs) as Hout.
    pose proof (feature_of_log w crs r fs) as Hlog.
    rewrite reproject_out in Hout. rewrite reproject_calls, Hn in Hlog.
    rewrite Hn in Hout.
    assert (Hok : exists f, res_out (feature_of w crs r fs) = Ret f).
    { destruct (truthy (geometry_of r)); cbn [andb] in Hout;
        [|eexists; exact Hout].
      destruct (transform_geom w crs target_crs (geometry_of r))
        as [g|e'] eqn:Htr; [eexists; exact Hout|].
      rewrite (Hpre r e' (or_introl eq_refl) Htr) in Hout.
      eexists; exact Hout. }
    destruct Hok as [f Hf]. rewrite Hf. cbn [res_out res_log].
    destruct (IH Hrest (acc ++ [f]) (res_fs (feature_of w crs r fs)))
      as [Hraise Hcalls].
    rewrite Hraise, Hcalls, Hlog. split; [reflexivity|].
    destruct (truthy (geometry_of r)); reflexivity.
Qed.

(** ** Values [json.dumps] refuses *)

Lemma contains_bytes_list (l : list pyval) :
  contains_bytes (PyList l) = existsb contains_bytes l.
Proof.
  induction l as [|x l IH]; [reflexivity|]. simpl in *. rewrite IH. reflexivity.
Qed.

(** [json.dumps] raises exactly on the values that hold a [bytes] object,
    and what it raises is the [TypeError] for it. *)
Lemma json_dumps_cases (v : pyval) :
  if contains_bytes v then json_dumps v = Raise not_serializable
  else exists s, json_dumps v = Ret s.
Proof.
  induction v as [ | b | z | r | s | b | l IHl | d IHd ] using pyval_nested_ind.
  - eexists; reflexivity.
  - destruct b; eexists; reflexivity.
  - eexists; reflexivity.
  - eexists; reflexivity.
  - eexists; reflexivity.
  - reflexivity.
  - cbn [json_dumps contains_bytes].
    match goal with
    | |- if ?a l then _ else _ => set (any := a)
    end.
    match goal with
    | |- context [match ?it l with Ret _ => _ | Raise _ => _ end] =>
        set (items := it)
    end.
    assert (Hitems : if any l then items l = Raise not_serializable
                     else exists ss, items l = Ret ss).
    { induction IHl as [|x l Hx Hl IH].
      - exists []. reflexivity.
      - subst items any. cbn -[lit not_serializable] in *.
        destruct (contains_bytes x).
        + rewrite Hx. reflexivity.
        + destruct Hx as [s ->]. cbn [orb].
          match type of IH with
          | if ?c then _ else _ => destruct c
          end.
          * rewrite IH. reflexivity.
          * destruct IH as [ss ->]. eexists; reflexivity. }
    destruct (any l).
    + rewrite Hitems. reflexivity.
    + destruct Hitems as [ss ->]. eexists; reflexivity.
  - cbn [json_dumps contains_bytes].
    match goal with
    | |- if ?a d then _ else _ => set (any := a)
    end.
    match goal with
    | |- context [match ?it d with Ret _ => _ | Raise _ => _ end] =>
        set (items := it)
    end.
    assert (Hitems : if any d then items d = Raise not_serializable
                     else exists ss, items d = Ret ss).
    { induction IHd as [|[k x] d Hx Hd IH].
      - exists []. reflexivity.
      - subst items any.
        cbn -[lit not_serializable encode_basestring_ascii] in *.
        destruct (contains_bytes x).
        + rewrite Hx. reflexivity.
        + destruct Hx as [s ->]. cbn [orb].
          match type of IH with
          | if ?c then _ else _ => destruct c
          end.
          * rewrite IH. reflexivity.
          * destruct IH as [ss ->]. eexists; reflexivity. }
    destruct (any d).
    + rewrite Hitems. reflexivity.
    + destruct Hitems as [ss ->]. eexists; reflexivity.
Qed.

Lemma json_dumps_bytes (v : pyval) :
  contains_bytes v = true -> json_dumps v = Raise not_serializable.
Proof.
  intros Hb. pose proof (json_dumps_cases v) as H. rewrite Hb in H. exact H.
Qed.

Lemma feature_collection_bytes (features : list pyval) (f : pyval) :
  In f features -> contains_bytes f = true ->
  contains_bytes (feature_collection features) = true.
Proof.
  intros Hin Hf. unfold feature_collection.
  change (false || (contains_bytes (PyList features) || false) = true).
  rewrite contains_bytes_list. cbn [orb]. rewrite orb_false_r.
  apply existsb_exists. exists f. split; assumption.
Qed.

(** ** Failures and edge cases of the library branch *)

Section LibraryEdges.

Variables (w : world) (file_obj : file_like) (fs : fsys).
Variables (data : bytes) (ds : dataset).

Hypothesis Hlibrary : import_error w = None.
Hypothesis Hread : read file_obj = Ret data.
Hypothesis Hopen :
  fiona_open w (tmp_name w fs) (<[tmp_name w fs := data]> fs) = Ret ds.

Lemma library_fs : res_fs (gpkg_to_geojson w file_obj fs) !! tmp_name w fs = None.
Proof.
  rewrite (library_call w file_obj fs data ds Hlibrary Hread Hopen).
  cbv zeta. cbn [res_fs]. apply lookup_delete_eq.
Qed.


(** X7. With the library, when [transform_geom] raises on a record
    something that is not an [Exception] (a [KeyboardInterrupt]), the call
    raises it: the geometry is not kept, the records after it are not
    looked at, no document is made, and the temporary file is removed. *)
Theorem interrupt_in_transform_propagates (pre post : list pydict)
  (rec : pydict) (e : exn) :
  ds_records ds = pre ++ rec :: post ->
  (forall r e', In r pre ->
     transform_geom w (crs_or_empty ds) target_crs (geometry_of r) = Raise e' ->
     is_Exception e' = true) ->
  truthy (geometry_of rec) = true ->
  needs_reprojection (crs_or_empty ds) = true ->
  transform_geom w (crs_or_empty ds) target_crs (geometry_of rec) = Raise e ->
  is_Exception e = false ->
  res_out (gpkg_to_geojson w file_obj fs) = Raise e
  /\ res_log (gpkg_to_geojson w file_obj fs)
     = [EvImport; EvCreate (tmp_name w fs); EvWrite (tmp_name w fs) data;
        EvOpen (tmp_name w fs)]
       ++ map (fun r => EvTransform (crs_or_empty ds) target_crs (geometry_of r))
            (List.filter (fun r => truthy (geometry_of r)) (pre ++ [rec]))
       ++ [EvUnlink (tmp_name w fs)]
  /\ res_fs (gpkg_to_geojson w file_obj fs) !! tmp_name w fs = None.
Proof.
  intros Hrecs Hpre Hg Hn Ht He.
  split; [|split; [|apply library_fs]].
  - rewrite (library_call w file_obj fs data ds Hlibrary Hread Hopen).
    cbv zeta. cbn [res_out]. rewrite Hrecs.
    destruct (for_rec_interrupted w _ pre post rec e Hpre Hg Hn Ht He []
                (<[tmp_name w fs := data]> fs)) as [-> _].
    reflexivity.
  - rewrite (library_call w file_obj fs data ds Hlibrary Hread Hopen).
    cbv zeta. cbn [res_log app]. rewrite Hrecs.
    destruct (for_rec_interrupted w _ pre post rec e Hpre Hg Hn Ht He []
                (<[tmp_name w fs := data]> fs)) as [_ ->].
    reflexivity.
Qed.

(** X8. With the library, when the iteration over the layer raises after
    some records, the call raises that exception as it is, whatever the
    records read so far were, and the temporary file is removed. *)
Theorem iteration_error_propagates (e : exn) :
  ds_end ds = Some e ->
  (forall rec e', In rec (ds_records ds) ->
     transform_geom w (crs_or_empty ds) target_crs (geometry_of rec) = Raise e' ->
     is_Exception e' = true) ->
  res_out (gpkg_to_geojson w file_obj fs) = Raise e
  /\ res_fs (gpkg_to_geojson w file_obj fs) !! tmp_name w fs = None.
Proof.
  intros Hend Hexn. split; [|apply library_fs].
  rewrite (library_call w file_obj fs data ds Hlibrary Hread Hopen).
  cbv zeta. cbn [res_out].
  destruct (for_rec_total w _ _ Hexn [] (<[tmp_name w fs := data]> fs))
    as [features ->].
  rewrite Hend. reflexivity.
Qed.

(** X9. With the library, a record whose properties hold a [bytes]
    value (a binary column) makes the call raise the [TypeError] of
    [json.dumps], not a [RuntimeError], even though every record was read;
    the temporary file is removed. *)
Theorem bytes_value_raises_type_error (rec : pydict) :
  ds_end ds = None ->
  (forall r e, In r (ds_records ds) ->
     transform_geom w (crs_or_empty ds) target_crs (geometry_of r) = Raise e ->
     is_Exception e = true) ->
  In rec (ds_records ds) ->
  truthy (properties_of rec) = true ->
  contains_bytes (properties_of rec) = true ->
  res_out (gpkg_to_geojson w file_obj fs) = Raise not_serializable
  /\ is_RuntimeError not_serializable = false
  /\ res_fs (gpkg_to_geojson w file_obj fs) !! tmp_name w fs = None.
Proof.
  intros Hend Hexn Hin Htruthy Hbytes.
  split; [|split; [reflexivity | apply library_fs]].
  rewrite (library_call w file_obj fs data ds Hlibrary Hread Hopen).
  cbv zeta. cbn [res_out].
  destruct (for_rec_total w _ _ Hexn [] (<[tmp_name w fs := data]> fs))
    as [features Hloop].
  rewrite Hloop, Hend.
  destruct (for_rec_ret _ _ _ _ _ _ Hloop) as (new & Hnew & Hall).
  simpl in Hnew. subst new.
  apply list_elem_of_In, list_elem_of_lookup in Hin as (i & Hi).
  destruct (Forall2_lookup_l _ _ _ _ _ Hall Hi)
    as (f & Hf & geom & l & -> & _).
  unfold serialise. rewrite (json_dumps_bytes (feature_collection features));
    [reflexivity|].
  eapply feature_collection_bytes.
  - apply list_elem_of_In. eapply list_elem_of_lookup_2, Hf.
  - unfold feature, properties_or_empty. rewrite Htruthy.
    cbn [contains_bytes]. rewrite Hbytes. apply orb_true_iff. right.
    apply orb_true_iff. right. reflexivity.
Qed.

End LibraryEdges.

Lemma to_N_byte_of_N (n : N) : n < 256 -> Byte.to_N (byte_of_N n) = n.
Proof.
  intros Hn. unfold byte_of_N.
  destruct (Byte.of_N n) as [b|] eqn:Hb.
  - apply Byte.to_of_N, Hb.
  - apply Byte.of_N_None_iff in Hb. lia.
Qed.

Section LibraryOutput.

Variables (w : world) (file_obj : file_like) (fs : fsys).
Variables (data : bytes) (ds : dataset).

Hypothesis Hlibrary : import_error w = None.
Hypothesis Hread : read file_obj = Ret data.
Hypothesis Hopen :
  fiona_open w (tmp_name w fs) (<[tmp_name w fs := data]> fs) = Ret ds.

(** X10. With the library, the bytes returned hold ASCII characters
    only, whatever characters the property values and keys hold:
    [json.dumps] escapes the others, so that encoding the text as UTF-8
    gives one byte below 128 per character. *)
Theorem library_output_is_ascii :
  ds_end ds = None ->
  Forall (fun rec => json_safe (PyDict rec) = true) (ds_records ds) ->
  (forall g g', transform_geom w (crs_or_empty ds) target_crs g = Ret g' ->
                json_safe g' = true) ->
  (forall g e, transform_geom w (crs_or_empty ds) target_crs g = Raise e ->
               is_Exception e = true) ->
  exists (features : list pyval) (s : pystr) (out : bytes),
    res_out (gpkg_to_geojson w file_obj fs) = Ret out
    /\ json_dumps (feature_collection features) = Ret s
    /\ map Byte.to_N out = s
    /\ Forall (fun b => Byte.to_N b < 128) out.
Proof.
  intros Hend Hsafe Htsafe Hexn.
  destruct (library_success w file_obj fs data ds Hlibrary Hread Hopen
              Hend Hsafe Htsafe Hexn)
    as (features & s & out & Hout & Hs & Henc & Hall).
  assert (Hfs : Forall (fun f => json_safe f = true) features).
  { clear Hout Hs. induction Hall as [|rec f recs fts Hf _ IH];
      [constructor|].
    inversion Hsafe as [|? ? Hrec Hrecs]; subst.
    constructor; [|apply IH, Hrecs].
    eapply made_from_safe; [exact Hrec | exact Htsafe | exact Hf]. }
  destruct (json_dumps_safe _ (feature_collection_safe _ Hfs))
    as (s' & Hs' & Hascii).
  rewrite Hs in Hs'. injection Hs' as <-.
  rewrite (encode_utf8_ascii s Hascii) in Henc. injection Henc as <-.
  exists features, s, (map byte_of_N s).
  split; [exact Hout|]. split; [exact Hs|].
  unfold is_ascii in Hascii. rewrite forallb_forall in Hascii.
  split.
  - rewrite map_map. rewrite <- (map_id s) at 2. apply map_ext_in.
    intros c Hc. apply to_N_byte_of_N.
    specialize (Hascii c Hc). apply N.ltb_lt in Hascii. lia.
  - apply Forall_forall. intros b Hb.
    apply list_elem_of_In, in_map_iff in Hb as (c & <- & Hc).
    specialize (Hascii c Hc). apply N.ltb_lt in Hascii.
    rewrite to_N_byte_of_N by lia. exact Hascii.
Qed.

(** X11. In a call that returns, a record whose geometry is false
    without being [None] (an empty mapping) keeps it in its feature as it
    is, and it is not handed to [transform_geom]; a record whose
    properties are false (an empty list, zero, an empty string) gets the
    empty object in their place. *)
Theorem false_values_in_features (out : bytes) :
  res_out (gpkg_to_geojson w file_obj fs) = Ret out ->
  exists (features : list pyval) (s : pystr),
    json_dumps (feature_collection features) = Ret s
    /\ encode_utf8 s = Some out
    /\ forall (i : nat) (rec : pydict),
         ds_records ds !! i = Some rec ->
         exists f,
           features !! i = Some f
           /\ (truthy (geometry_of rec) = false ->
               member f (lit "geometry") = geometry_of rec
               /\ ~ transformed (res_log (gpkg_to_geojson w file_obj fs))
                      (geometry_of rec))
           /\ (truthy (properties_of rec) = false ->
               member f (lit "properties") = PyDict [])
           /\ (truthy (properties_of rec) = true ->
               member f (lit "properties") = properties_of rec).
Proof.
  intros Hok.
  destruct (library_returned w file_obj fs data ds Hlibrary Hread Hopen
              out Hok) as (features & s & Hs & Henc & Hall).
  exists features, s. split; [exact Hs|]. split; [exact Henc|].
  intros i rec Hi.
  destruct (Forall2_lookup_l _ _ _ _ _ Hall Hi) as (f & Hf & Hmade).
  exists f. split; [exact Hf|]. split; [|split].
  - intros Hfalse. split.
    + rewrite (made_from_skipped w ds _ _ _ Hmade); [reflexivity|].
      rewrite Hfalse. reflexivity.
    + intros Ht.
      destruct (transformed_inv w file_obj fs data ds Hlibrary Hread Hopen
                  _ Ht) as [Htrue _].
      congruence.
  - intros Hfalse. destruct Hmade as (geom & l & -> & _).
    unfold properties_or_empty. rewrite Hfalse. reflexivity.
  - intros Htrue. destruct Hmade as (geom & l & -> & _).
    unfold properties_or_empty. rewrite Htrue. reflexivity.
Qed.

End LibraryOutput.

(** ** The probe *)

(** X12. When [import fiona] works and the import of [transform_geom]
    from [fiona.transform] raises an [Exception], the call is the process
    branch, as if Fiona were not installed at all: Fiona opens nothing and
    [transform_geom] is not called. *)
Theorem half_import_falls_back (w : world) (file_obj : file_like) (fs : fsys)
  (e : exn) :
  import_fiona w = None ->
  import_transform_geom w = Some e ->
  is_Exception e = true ->
  res_out (gpkg_to_geojson w file_obj fs)
  = res_out (process_path w file_obj fs)
  /\ forall ev, In ev (res_log (gpkg_to_geojson w file_obj fs)) ->
                is_EvTransform ev = false /\ ev <> EvOpen (tmp_name w fs).
Proof.
  intros Hfiona Htransform He.
  assert (Himport : import_error w = Some e)
    by (unfold import_error; rewrite Hfiona; exact Htransform).
  rewrite gpkg_to_geojson_run, Himport, He. cbv zeta. cbn [res_out res_log].
  split; [reflexivity|].
  intros ev [<-|Hin]; [split; easy|].
  apply process_path_log in Hin as (_ & Ht & Ho). auto.
Qed.

(** X13. When an import raises something that is not an [Exception]
    (a [KeyboardInterrupt]), the call raises it at once: no temporary file
    is created, neither branch runs, the file system is left as it was. *)
Theorem interrupted_import_propagates (w : world) (file_obj : file_like)
  (fs : fsys) (e : exn) :
  import_error w = Some e ->
  is_Exception e = false ->
  res_out (gpkg_to_geojson w file_obj fs) = Raise e
  /\ res_fs (gpkg_to_geojson w file_obj fs) = fs
  /\ res_log (gpkg_to_geojson w file_obj fs) = [EvImport].
Proof.
  intros Himport He.
  rewrite gpkg_to_geojson_run, Himport, He. repeat split.
Qed.

(** ** The codec of the error message *)

Ltac nlia := zify; Z.to_euclidean_division_equations; lia.

Ltac split_cmp :=
  match goal with
  | |- context [?a <? ?b] => destruct (N.ltb_spec a b)
  | |- context [?a <=? ?b] => destruct (N.leb_spec a b)
  | |- context [?a =? ?b] => destruct (N.eqb_spec a b)
  end; cbn [andb orb negb].

Lemma is_scalar_intro (c : N) :
  c <= 0x10FFFF -> c < 0xD800 \/ 0xDFFF < c -> is_scalar c = true.
Proof.
  intros Hmax Hrange. unfold is_scalar, is_surrogate.
  repeat split_cmp; try reflexivity; lia.
Qed.

Lemma is_scalar_elim (c : N) :
  is_scalar c = true -> c <= 0x10FFFF /\ (c < 0xD800 \/ 0xDFFF < c).
Proof.
  unfold is_scalar, is_surrogate.
  repeat split_cmp; intros ?; try discriminate; lia.
Qed.

(** One step of the decoder in a proof by induction on the length: the
    comparisons are decided, the next byte is taken when the decoder takes
    it, and what is left is a character and a shorter input. *)
Ltac decode_step IH Hlen Hrep :=
  repeat split_cmp;
  lazymatch goal with
  | |- Forall _ (match ?r with [] => _ | _ :: _ => _ end) =>
      let b := fresh "b" in
      let r' := fresh "r" in
      destruct r as [|b r'];
      [ repeat constructor
      | pose proof (Byte.to_N_bounded b); decode_step IH Hlen Hrep ]
  | |- Forall _ (_ :: _) =>
      constructor;
      [ first [exact Hrep | apply is_scalar_intro; lia]
      | first [constructor | apply IH; cbn [length] in Hlen |- *; lia] ]
  end.

(** Whatever the bytes, decoding with replacement gives a string of code
    points up to U+10FFFF without surrogates. *)
Lemma decode_utf8_replace_scalar (bs : bytes) :
  Forall (fun c => is_scalar c = true) (decode_utf8_replace bs).
Proof.
  assert (Hall : forall n (bs : bytes), (length bs <= n)%nat ->
            Forall (fun c => is_scalar c = true) (decode_utf8_replace bs)).
  { clear bs. induction n as [|n IH]; intros bs Hlen.
    - destruct bs; [constructor | simpl in Hlen; lia].
    - destruct bs as [|b0 r0]; [constructor|].
      assert (Hrep : is_scalar REPLACEMENT = true) by reflexivity.
      cbn [decode_utf8_replace]. unfold is_cont.
      pose proof (Byte.to_N_bounded b0) as Hb0.
      decode_step IH Hlen Hrep. }
  apply (Hall (length bs)). lia.
Qed.

Ltac decide_cmp :=
  match goal with
  | |- context [?a <? ?b] =>
      destruct (N.ltb_spec a b); [try (exfalso; nlia) | try (exfalso; nlia)]
  | |- context [?a <=? ?b] =>
      destruct (N.leb_spec a b); [try (exfalso; nlia) | try (exfalso; nlia)]
  | |- context [?a =? ?b] =>
      destruct (N.eqb_spec a b); [try (exfalso; nlia) | try (exfalso; nlia)]
  end; cbn [andb orb negb].

(** Encoding one character and decoding the bytes gives the character
    back and leaves the rest of the input to be decoded. *)
Lemma decode_encode_cp (c : N) (b rest : bytes) :
  is_scalar c = true ->
  encode_cp c = Some b ->
  decode_utf8_replace (b ++ rest) = c :: decode_utf8_replace rest.
Proof.
  intros [Hmax Hrange]%is_scalar_elim. unfold encode_cp, is_surrogate.
  destruct (N.ltb_spec c 0x80); [|destruct (N.ltb_spec c 0x800);
    [|destruct (N.ltb_spec c 0x10000)]].
  - intros [= <-]. cbn [app decode_utf8_replace].
    rewrite to_N_byte_of_N by lia. repeat decide_cmp. reflexivity.
  - intros [= <-]. cbn [app decode_utf8_replace]. unfold is_cont.
    rewrite !to_N_byte_of_N by nlia. repeat decide_cmp.
    match goal with |- ?x :: _ = _ => replace x with c by nlia end.
    reflexivity.
  - repeat decide_cmp.
    all: intros [= <-]; cbn [app decode_utf8_replace]; unfold is_cont.
    all: rewrite !to_N_byte_of_N by nlia; repeat decide_cmp.
    all: match goal with |- ?x :: _ = _ => replace x with c by nlia end.
    all: reflexivity.
  - intros [= <-]. cbn [app decode_utf8_replace]. unfold is_cont.
    rewrite !to_N_byte_of_N by nlia. repeat decide_cmp.
    all: match goal with |- ?x :: _ = _ => replace x with c by nlia end.
    all: reflexivity.
Qed.

(** Round trip: a string of scalar values encodes, and decoding the bytes
    gives the string back. *)
Lemma decode_encode_utf8 (s : pystr) :
  Forall (fun c => is_scalar c = true) s ->
  exists bs, encode_utf8 s = Some bs /\ decode_utf8_replace bs = s.
Proof.
  induction 1 as [|c s Hc Hs (bs & Henc & Hdec)].
  - exists []. split; reflexivity.
  - assert (Hcp : exists b, encode_cp c = Some b).
    { pose proof (is_scalar_elim c Hc) as [Hmax Hrange].
      unfold encode_cp, is_surrogate.
      repeat decide_cmp; eexists; reflexivity. }
    destruct Hcp as [b Hb].
    exists (b ++ bs). cbn [encode_utf8]. rewrite Hb, Henc.
    split; [reflexivity|].
    rewrite (decode_encode_cp c b bs Hc Hb), Hdec. reflexivity.
Qed.

Section ProcessMessage.

Variables (w : world) (file_obj : file_like) (fs : fsys).
Variables (absent : exn) (data : bytes) (proc : completed).

Hypothesis Habsent : import_error w = Some absent.
Hypothesis Hcaught : is_Exception absent = true.
Hypothesis Hread : read file_obj = Ret data.
Hypothesis Hrun :
  run w (ogr2ogr_cmd (tmp_name w fs)) (<[tmp_name w fs := data]> fs)
  = Ret proc.
Hypothesis Hfailed : returncode proc <> 0%Z.

Lemma process_failure_out :
  res_out (gpkg_to_geojson w file_obj fs)
  = Raise (RuntimeError
             (lit "ogr2ogr failed: " ++ decode_utf8_replace (stderr proc))).
Proof.
  rewrite (process_call w file_obj fs absent data proc Habsent Hcaught
             Hread Hrun). cbn [res_out].
  destruct (returncode proc =? 0)%Z eqn:Hrc; [|reflexivity].
  apply Z.eqb_eq in Hrc. contradiction.
Qed.

(** X14. Without the library, when the converter fails after writing a
    text in UTF-8 to its standard error, the message of the [RuntimeError]
    is ["ogr2ogr failed: "] followed by that very text, character for
    character, whatever the characters. *)
Theorem utf8_stderr_reproduced (text : pystr) :
  Forall (fun c => is_scalar c = true) text ->
  encode_utf8 text = Some (stderr proc) ->
  res_out (gpkg_to_geojson w file_obj fs)
  = Raise (RuntimeError (lit "ogr2ogr failed: " ++ text)).
Proof.
  intros Hscalar Henc. rewrite process_failure_out.
  destruct (decode_encode_utf8 text Hscalar) as (bs & Hbs & Hdec).
  rewrite Henc in Hbs. injection Hbs as <-. rewrite Hdec. reflexivity.
Qed.

(** X15. Without the library, when the converter fails, whatever bytes
    it wrote to its standard error, the message of the [RuntimeError] is a
    well-formed string: no surrogate, no code point above U+10FFFF, so it
    can be encoded as UTF-8 again. *)
Theorem failure_message_well_formed :
  exists (msg : pystr) (encoded : bytes),
    res_out (gpkg_to_geojson w file_obj fs) = Raise (RuntimeError msg)
    /\ Forall (fun c => is_scalar c = true) msg
    /\ encode_utf8 msg = Some encoded.
Proof.
  assert (Hmsg : Forall (fun c => is_scalar c = true)
                   (lit "ogr2ogr failed: "
                    ++ decode_utf8_replace (stderr proc))).
  { apply Forall_app. split; [|apply decode_utf8_replace_scalar].
    repeat constructor. }
  destruct (decode_encode_utf8 _ Hmsg) as (encoded & Henc & _).
  eexists; exists encoded.
  split; [apply process_failure_out|]. split; assumption.
Qed.

End ProcessMessage.

(** ** The further properties at the sample worlds *)

Lemma edge_open (ds : dataset)
  (transform : pydict -> pydict -> pyval -> outcome pyval) :
  fiona_open (Edge.fiona_world ds transform)
    (tmp_name (Edge.fiona_world ds transform) ∅)
    (<[tmp_name (Edge.fiona_world ds transform) ∅ := Sample.upload]> ∅)
  = Ret ds.
Proof. vm_compute. reflexivity. Qed.

Lemma interrupted_transform_pre (crs : pydict) (r : pydict) (e : exn) :
  In r [Sample.town] ->
  Edge.interrupted_transform crs target_crs (geometry_of r) = Raise e ->
  is_Exception e = true.
Proof. intros [<-|[]]. vm_compute. discriminate. Qed.


Lemma interrupt_in_transform_propagates_witness :
  res_out (gpkg_to_geojson
             (Edge.fiona_world Edge.patchy_layer Edge.interrupted_transform)
             Sample.file_obj ∅) = Raise Edge.interrupt
  /\ res_log (gpkg_to_geojson
                (Edge.fiona_world Edge.patchy_layer Edge.interrupted_transform)
                Sample.file_obj ∅)
     = [EvImport; EvCreate Sample.tmp; EvWrite Sample.tmp Sample.upload;
        EvOpen Sample.tmp]
       ++ map (fun r => EvTransform (crs_or_empty Edge.patchy_layer)
                          target_crs (geometry_of r))
            (List.filter (fun r => truthy (geometry_of r))
               ([Sample.town] ++ [Sample.broken]))
       ++ [EvUnlink Sample.tmp]
  /\ res_fs (gpkg_to_geojson
               (Edge.fiona_world Edge.patchy_layer Edge.interrupted_transform)
               Sample.file_obj ∅) !! Sample.tmp = None.
Proof.
  apply (interrupt_in_transform_propagates
           (Edge.fiona_world Edge.patchy_layer Edge.interrupted_transform)
           Sample.file_obj ∅ Sample.upload Edge.patchy_layer
           eq_refl eq_refl (edge_open _ _)
           [Sample.town] [Sample.town] Sample.broken Edge.interrupt).
  - reflexivity.
  - apply interrupted_transform_pre.
  - reflexivity.
  - reflexivity.
  - reflexivity.
  - reflexivity.
Defined.

Lemma iteration_error_propagates_witness :
  res_out (gpkg_to_geojson
             (Edge.fiona_world Edge.truncated_layer Sample.to_wgs84)
             Sample.file_obj ∅) = Raise Edge.read_error
  /\ res_fs (gpkg_to_geojson
               (Edge.fiona_world Edge.truncated_layer Sample.to_wgs84)
               Sample.file_obj ∅) !! Sample.tmp = None.
Proof.
  apply (iteration_error_propagates
           (Edge.fiona_world Edge.truncated_layer Sample.to_wgs84)
           Sample.file_obj ∅ Sample.upload Edge.truncated_layer
           eq_refl eq_refl (edge_open _ _) Edge.read_error).
  - reflexivity.
  - intros rec e _. apply to_wgs84_exception.
Defined.

Lemma bytes_value_raises_type_error_witness :
  res_out (gpkg_to_geojson (Edge.fiona_world Edge.blob_layer Sample.to_wgs84)
             Sample.file_obj ∅) = Raise not_serializable
  /\ is_RuntimeError not_serializable = false
  /\ res_fs (gpkg_to_geojson
               (Edge.fiona_world Edge.blob_layer Sample.to_wgs84)
               Sample.file_obj ∅) !! Sample.tmp = None.
Proof.
  apply (bytes_value_raises_type_error
           (Edge.fiona_world Edge.blob_layer Sample.to_wgs84)
           Sample.file_obj ∅ Sample.upload Edge.blob_layer
           eq_refl eq_refl (edge_open _ _) Edge.blob).
  - reflexivity.
  - intros rec e _. apply to_wgs84_exception.
  - right. left. reflexivity.
  - reflexivity.
  - reflexivity.
Defined.

Lemma library_output_is_ascii_witness :
  exists (features : list pyval) (s : pystr) (out : bytes),
    res_out (gpkg_to_geojson (Sample.with_fiona (Some Sample.utm33))
               Sample.file_obj ∅) = Ret out
    /\ json_dumps (feature_collection features) = Ret s
    /\ map Byte.to_N out = s
    /\ Forall (fun b => Byte.to_N b < 128) out.
Proof.
  apply (library_output_is_ascii
           (Sample.with_fiona (Some Sample.utm33)) Sample.file_obj ∅
           Sample.upload (Sample.layer (Some Sample.utm33))
           eq_refl eq_refl (sample_open _)).
  - reflexivity.
  - apply sample_records_safe.
  - intros g g'. apply to_wgs84_safe.
  - intros g e. apply to_wgs84_exception.
Defined.

Lemma false_values_in_features_witness :
  exists (features : list pyval) (s : pystr),
    json_dumps (feature_collection features) = Ret s
    /\ encode_utf8 s = Some Edge.hollow_document
    /\ forall (i : nat) (rec : pydict),
         ds_records Edge.hollow_layer !! i = Some rec ->
         exists f,
           features !! i = Some f
           /\ (truthy (geometry_of rec) = false ->
               member f (lit "geometry") = geometry_of rec
               /\ ~ transformed
                      (res_log (gpkg_to_geojson
                                  (Edge.fiona_world Edge.hollow_layer
                                     Sample.to_wgs84)
                                  Sample.file_obj ∅))
                      (geometry_of rec))
           /\ (truthy (properties_of rec) = false ->
               member f (lit "properties") = PyDict [])
           /\ (truthy (properties_of rec) = true ->
               member f (lit "properties") = properties_of rec).
Proof.
  apply (false_values_in_features
           (Edge.fiona_world Edge.hollow_layer Sample.to_wgs84)
           Sample.file_obj ∅ Sample.upload Edge.hollow_layer
           eq_refl eq_refl (edge_open _ _)).
  vm_compute. reflexivity.
Defined.

Lemma half_import_falls_back_witness :
  res_out (gpkg_to_geojson Edge.half_installed Sample.file_obj ∅)
  = res_out (process_path Edge.half_installed Sample.file_obj ∅)
  /\ forall ev,
       In ev (res_log (gpkg_to_geojson Edge.half_installed Sample.file_obj ∅)) ->
       is_EvTransform ev = false
       /\ ev <> EvOpen (tmp_name Edge.half_installed ∅).
Proof.
  apply (half_import_falls_back Edge.half_installed Sample.file_obj ∅
           Edge.import_error_exn).
  - reflexivity.
  - reflexivity.
  - reflexivity.
Defined.

Lemma interrupted_import_propagates_witness :
  res_out (gpkg_to_geojson Edge.interrupted_import Sample.file_obj Edge.busy)
  = Raise Edge.interrupt
  /\ res_fs (gpkg_to_geojson Edge.interrupted_import Sample.file_obj Edge.busy)
     = Edge.busy
  /\ res_log (gpkg_to_geojson Edge.interrupted_import Sample.file_obj Edge.busy)
     = [EvImport].
Proof.
  apply (interrupted_import_propagates Edge.interrupted_import Sample.file_obj
           Edge.busy Edge.interrupt).
  - reflexivity.
  - reflexivity.
Defined.

Lemma utf8_stderr_reproduced_witness :
  res_out (gpkg_to_geojson Edge.utf8_world Sample.file_obj ∅)
  = Raise (RuntimeError
             (lit "ogr2ogr failed: " ++ [0x63; 0x61; 0x66; 0xE9; 0x20; 0x20AC])).
Proof.
  apply (utf8_stderr_reproduced Edge.utf8_world Sample.file_obj ∅
           Sample.no_fiona Sample.upload
           {| returncode := 1; stdout := [];
              stderr := [x63; x61; x66; xc3; xa9; x20; xe2; x82; xac] |}).
  - reflexivity.
  - reflexivity.
  - reflexivity.
  - reflexivity.
  - discriminate.
  - repeat constructor.
  - reflexivity.
Defined.

Lemma failure_message_well_formed_witness :
  exists (msg : pystr) (encoded : bytes),
    res_out (gpkg_to_geojson Edge.latin1_world Sample.file_obj ∅)
    = Raise (RuntimeError msg)
    /\ Forall (fun c => is_scalar c = true) msg
    /\ encode_utf8 msg = Some encoded.
Proof.
  apply (failure_message_well_formed Edge.latin1_world Sample.file_obj ∅
           Sample.no_fiona Sample.upload
           {| returncode := 2; stdout := [];
              stderr := [x63; x61; x66; xe9; x20; xed; xa0; x80] |}).
  - reflexivity.
  - reflexivity.
  - reflexivity.
  - reflexivity.
  - discriminate.
Defined.

(** The message for the Latin-1 output: the byte that is not UTF-8 and each
    byte of the encoded surrogate become U+FFFD. *)
Example latin1_message :
  res_out (gpkg_to_geojson Edge.latin1_world Sample.file_obj ∅)
  = Raise (RuntimeError
             (lit "ogr2ogr failed: caf"
              ++ [REPLACEMENT; 0x20; REPLACEMENT; REPLACEMENT; REPLACEMENT])).
Proof. vm_compute. reflexivity. Qed.

(** X16. With the library, when Fiona cannot open the temporary file the
    call raises Fiona's exception as it is, [transform_geom] is not called,
    and the temporary file is removed. *)
Theorem open_error_cleans_up (w : world) (file_obj : file_like) (fs : fsys)
  (data : bytes) (e : exn) :
  import_error w = None ->
  read file_obj = Ret data ->
  fiona_open w (tmp_name w fs) (<[tmp_name w fs := data]> fs) = Raise e ->
  res_out (gpkg_to_geojson w file_obj fs) = Raise e
  /\ res_log (gpkg_to_geojson w file_obj fs)
     = [EvImport; EvCreate (tmp_name w fs); EvWrite (tmp_name w fs) data;
        EvOpen (tmp_name w fs); EvUnlink (tmp_name w fs)]
  /\ res_fs (gpkg_to_geojson w file_obj fs) !! tmp_name w fs = None.
Proof.
  intros Hlibrary Hread Hopen.
  rewrite gpkg_to_geojson_run, Hlibrary. cbv zeta.
  rewrite (library_path_run w file_obj fs data Hread). cbv zeta.
  rewrite convert_run, read_features_run, Hopen.
  cbn [res_out res_fs res_log]. repeat split. apply lookup_delete_eq.
Qed.

Lemma open_error_cleans_up_witness :
  res_out (gpkg_to_geojson Sample.unreadable Sample.file_obj ∅)
  = Raise Sample.driver_error
  /\ res_log (gpkg_to_geojson Sample.unreadable Sample.file_obj ∅)
     = [EvImport; EvCreate (tmp_name Sample.unreadable ∅);
        EvWrite (tmp_name Sample.unreadable ∅) Sample.upload;
        EvOpen (tmp_name Sample.unreadable ∅);
        EvUnlink (tmp_name Sample.unreadable ∅)]
  /\ res_fs (gpkg_to_geojson Sample.unreadable Sample.file_obj ∅)
       !! tmp_name Sample.unreadable ∅ = None.
Proof.
  apply (open_error_cleans_up Sample.unreadable Sample.file_obj ∅
           Sample.upload Sample.driver_error).
  - reflexivity.
  - reflexivity.
  - reflexivity.
Defined.

(** * The document, the message and the temporary file *)

(** ** The text of the document *)

Lemma json_dumps_list (l : list pyval) :
  json_dumps (PyList l)
  = match dumps_each l with
    | Raise e => Raise e
    | Ret ss => Ret (lit "[" ++ join (lit ", ") ss ++ lit "]")
    end.
Proof.
  cbn [json_dumps].
  match goal with
  | |- match ?it l with Ret _ => _ | Raise _ => _ end = _ =>
      assert (Hsame : it l = dumps_each l)
  end.
  { induction l as [|x l IH]; [reflexivity|].
    cbn [dumps_each]. rewrite <- IH. reflexivity. }
  rewrite Hsame. reflexivity.
Qed.

Lemma dumps_each_ret (l : list pyval) (ss : list pystr) :
  dumps_each l = Ret ss ->
  Forall2 (fun v s => json_dumps v = Ret s) l ss.
Proof.
  revert ss. induction l as [|x l IH]; intros ss.
  - intros [= <-]. constructor.
  - cbn [dumps_each].
    destruct (json_dumps x) as [s|e] eqn:Hx; [|discriminate].
    destruct (dumps_each l) as [ss'|e]; [|discriminate].
    intros [= <-]. constructor; [exact Hx | apply IH; reflexivity].
Qed.

(** The text of a feature is the text of line 48's three members around
    the texts of its geometry and of its properties. *)
Lemma json_dumps_feature (geom props : pyval) :
  json_dumps (feature geom props)
  = match json_dumps geom with
    | Raise e => Raise e
    | Ret g =>
        match json_dumps props with
        | Raise e => Raise e
        | Ret p => Ret (feature_text g p)
        end
    end.
Proof.
  unfold feature. cbn [json_dumps].
  destruct (json_dumps geom) as [g|e]; [|reflexivity].
  destruct (json_dumps props) as [p|e]; [|reflexivity].
  f_equal. unfold feature_text. cbn [join].
  rewrite <- !app_assoc. reflexivity.
Qed.

(** The text of the document is the text of line 49's two members around
    the texts of the features. *)
Lemma json_dumps_collection (features : list pyval) :
  json_dumps (feature_collection features)
  = match dumps_each features with
    | Raise e => Raise e
    | Ret texts => Ret (collection_text texts)
    end.
Proof.
  unfold feature_collection.
  pose proof (json_dumps_list features) as Hlist.
  cbn [json_dumps] in *. rewrite Hlist.
  destruct (dumps_each features) as [texts|e]; [|reflexivity].
  f_equal. unfold collection_text. cbn [join].
  rewrite <- !app_assoc. reflexivity.
Qed.

Example feature_text_sample :
  feature_text (lit "null") (lit "{}")
  = map Byte.to_N
      (Sample.quoted "{'type': 'Feature', 'geometry': null, 'properties': {}}").
Proof. reflexivity. Qed.

Example collection_text_sample :
  collection_text [lit "1"; lit "2"]
  = map Byte.to_N
      (Sample.quoted "{'type': 'FeatureCollection', 'features': [1, 2]}").
Proof. reflexivity. Qed.

Section LibraryDocument.

Variables (w : world) (file_obj : file_like) (fs : fsys).
Variables (data : bytes) (ds : dataset).

Hypothesis Hlibrary : import_error w = None.
Hypothesis Hread : read file_obj = Ret data.
Hypothesis Hopen :
  fiona_open w (tmp_name w fs) (<[tmp_name w fs := data]> fs) = Ret ds.

(** What a call that returns has returned: the bytes of the document text,
    whose features come from the records, one by one. *)
Lemma library_returned_text (out : bytes) :
  res_out (gpkg_to_geojson w file_obj fs) = Ret out ->
  exists texts,
    encode_utf8 (collection_text texts) = Some out
    /\ Forall2
         (text_from w (crs_or_empty ds)
            (res_log (gpkg_to_geojson w file_obj fs)))
         (ds_records ds) texts.
Proof.
  intros Hok.
  destruct (library_returned w file_obj fs data ds Hlibrary Hread Hopen
              out Hok) as (features & s & Hs & Henc & Hall).
  rewrite json_dumps_collection in Hs.
  destruct (dumps_each features) as [texts|e] eqn:Heach; [|discriminate].
  injection Hs as <-. exists texts. split; [exact Henc|].
  apply dumps_each_ret in Heach.
  clear Henc Hok. revert texts Heach.
  induction Hall as [|rec f recs fts Hmade _ IH]; intros texts Heach.
  - inversion Heach. constructor.
  - inversion Heach as [|? t ? ts Ht Hts]; subst.
    constructor; [|apply IH, Hts].
    destruct Hmade as (geom & l & -> & Hg & Hl).
    rewrite json_dumps_feature in Ht.
    destruct (json_dumps geom) as [g|] eqn:Hgeom; [|discriminate].
    destruct (json_dumps (properties_or_empty rec)) as [p|] eqn:Hprops;
      [|discriminate].
    injection Ht as <-.
    exists geom, l, g, p. repeat split; assumption.
Qed.




(** C1. With the library present, an upload that reads as a
    layer of N records made of values [json.dumps] accepts comes back as
    the UTF-8 bytes of the text
    [{"type": "FeatureCollection", "features": [f1, ..., fN]}], where the
    i-th of the N feature texts is
    [{"type": "Feature", "geometry": g, "properties": p}], [g] being the
    text of the geometry of the i-th record, or of the one [transform_geom]
    returned for it when the tests of lines 40 and 42 hold and it did not
    raise, and [p] the text of its properties, or of the empty mapping when
    it has none. *)
Theorem library_path_feature_collection :
  ds_end ds = None ->
  Forall (fun rec => json_safe (PyDict rec) = true) (ds_records ds) ->
  (forall g g', transform_geom w (crs_or_empty ds) target_crs g = Ret g' ->
                json_safe g' = true) ->
  (forall g e, transform_geom w (crs_or_empty ds) target_crs g = Raise e ->
               is_Exception e = true) ->
  exists (texts : list pystr) (out : bytes),
    res_out (gpkg_to_geojson w file_obj fs) = Ret out
    /\ encode_utf8 (collection_text texts) = Some out
    /\ length texts = length (ds_records ds)
    /\ forall (i : nat) (rec : pydict),
         ds_records ds !! i = Some rec ->
         exists (geom props : pyval) (g p : pystr),
           texts !! i = Some (feature_text g p)
           /\ json_dumps geom = Ret g
           /\ json_dumps props = Ret p
           /\ geom
              = (if truthy (geometry_of rec)
                    && needs_reprojection (crs_or_empty ds)
                 then
                   match transform_geom w (crs_or_empty ds) target_crs
                           (geometry_of rec) with
                   | Ret g' => g'
                   | Raise _ => geometry_of rec
                   end
                 else geometry_of rec)
           /\ props
              = (if truthy (properties_of rec) then properties_of rec
                 else PyDict []).
Proof.
  intros Hend Hsafe Htsafe Hexn.
  destruct (library_success w file_obj fs data ds Hlibrary Hread Hopen
              Hend Hsafe Htsafe Hexn) as (_ & _ & out & Hout & _).
  destruct (library_returned_text out Hout) as (texts & Henc & Hall).
  exists texts, out.
  split; [exact Hout|]. split; [exact Henc|]. split.
  - symmetry. eapply Forall2_length, Hall.
  - intros i rec Hi.
    destruct (Forall2_lookup_l _ _ _ _ _ Hall Hi)
      as (text & Htext & geom & l & g & p & -> & Hgeom & Hprops & Hg & _).
    exists geom, (properties_or_empty rec), g, p.
    split; [exact Htext|]. split; [exact Hgeom|]. split; [exact Hprops|].
    split; [|reflexivity].
    destruct Hg as [ Hskip | g' Hyes Ht | e Hyes Ht _ ].
    + rewrite Hskip. reflexivity.
    + rewrite Hyes, Ht. reflexivity.
    + rewrite Hyes, Ht. reflexivity.
Qed.

(** C3. When [transform_geom] raises on the geometry of the i-th record,
    the call still returns the document; in it, the geometry of the i-th
    feature is the text of the geometry the record had, and every record
    on which [transform_geom] succeeds has the text of the geometry it
    returned. *)
Theorem reprojection_failure_keeps_geometry (i : nat) (rec : pydict)
  (e : exn) :
  ds_end ds = None ->
  Forall (fun rec => json_safe (PyDict rec) = true) (ds_records ds) ->
  (forall g g', transform_geom w (crs_or_empty ds) target_crs g = Ret g' ->
                json_safe g' = true) ->
  (forall g e, transform_geom w (crs_or_empty ds) target_crs g = Raise e ->
               is_Exception e = true) ->
  ds_records ds !! i = Some rec ->
  truthy (geometry_of rec) = true ->
  needs_reprojection (crs_or_empty ds) = true ->
  transform_geom w (crs_or_empty ds) target_crs (geometry_of rec) = Raise e ->
  exists (texts : list pystr) (out : bytes),
    res_out (gpkg_to_geojson w file_obj fs) = Ret out
    /\ encode_utf8 (collection_text texts) = Some out
    /\ length texts = length (ds_records ds)
    /\ transformed (res_log (gpkg_to_geojson w file_obj fs)) (geometry_of rec)
    /\ (exists g p,
          texts !! i = Some (feature_text g p)
          /\ json_dumps (geometry_of rec) = Ret g)
    /\ forall (j : nat) (rec' : pydict) (g' : pyval),
         ds_records ds !! j = Some rec' ->
         truthy (geometry_of rec') = true ->
         transform_geom w (crs_or_empty ds) target_crs (geometry_of rec')
           = Ret g' ->
         exists g p,
           texts !! j = Some (feature_text g p) /\ json_dumps g' = Ret g.
Proof.
  intros Hend Hsafe Htsafe Hexn Hi Htruthy Hneeds Hfail.
  destruct (library_success w file_obj fs data ds Hlibrary Hread Hopen
              Hend Hsafe Htsafe Hexn) as (_ & _ & out & Hout & _).
  destruct (library_returned_text out Hout) as (texts & Henc & Hall).
  exists texts, out.
  split; [exact Hout|]. split; [exact Henc|].
  split; [symmetry; eapply Forall2_length, Hall|].
  split; [|split].
  - destruct (Forall2_lookup_l _ _ _ _ _ Hall Hi)
      as (text & _ & geom & l & g & p & _ & _ & _ & Hg & Hl).
    destruct Hg as [ Hskip | g' _ Ht | e' _ _ _ ].
    + rewrite Htruthy, Hneeds in Hskip. discriminate.
    + congruence.
    + exists (crs_or_empty ds), target_crs. apply Hl. left. reflexivity.
  - destruct (Forall2_lookup_l _ _ _ _ _ Hall Hi)
      as (text & Htext & geom & l & g & p & -> & Hgeom & _ & Hg & _).
    exists g, p. split; [exact Htext|].
    destruct Hg as [ _ | g' _ Ht | e' _ _ _ ];
      [exact Hgeom | congruence | exact Hgeom].
  - intros j rec' g' Hj Htruthy' Hok.
    destruct (Forall2_lookup_l _ _ _ _ _ Hall Hj)
      as (text & Htext & geom & l & g & p & -> & Hgeom & _ & Hg & _).
    exists g, p. split; [exact Htext|].
    destruct Hg as [ Hskip | g'' _ Ht | e' _ Ht _ ].
    + rewrite Htruthy', Hneeds in Hskip. discriminate.
    + congruence.
    + congruence.
Qed.


End LibraryDocument.

(** ** What the decoder replaces *)



Section ProcessMessageClaim.

Variables (w : world) (file_obj : file_like) (fs : fsys).
Variables (absent : exn) (data : bytes) (proc : completed).

Hypothesis Habsent : import_error w = Some absent.
Hypothesis Hcaught : is_Exception absent = true.
Hypothesis Hread : read file_obj = Ret data.
Hypothesis Hrun :
  run w (ogr2ogr_cmd (tmp_name w fs)) (<[tmp_name w fs := data]> fs)
  = Ret proc.


End ProcessMessageClaim.

(** ** Where the temporary file ends *)

(** X2. When the name of the temporary file was free: a call whose
    import raised leaves the file system as it found it; so does a call
    that got as far as opening the file with Fiona, however it ends; and a
    call with the library whose [read] raises leaves the file, empty, and
    raises what [read] raised. *)
Theorem temporary_file_fate (w : world) (file_obj : file_like) (fs : fsys) :
  fs !! tmp_name w fs = None ->
  ((exists e, import_error w = Some e) ->
   res_fs (gpkg_to_geojson w file_obj fs) = fs)
  /\ (In (EvOpen (tmp_name w fs)) (res_log (gpkg_to_geojson w file_obj fs)) ->
      res_fs (gpkg_to_geojson w file_obj fs) = fs
      /\ In (EvUnlink (tmp_name w fs))
           (res_log (gpkg_to_geojson w file_obj fs)))
  /\ (forall e,
        import_error w = None -> read file_obj = Raise e ->
        res_out (gpkg_to_geojson w file_obj fs) = Raise e
        /\ res_fs (gpkg_to_geojson w file_obj fs) !! tmp_name w fs = Some []
        /\ ~ In (EvUnlink (tmp_name w fs))
               (res_log (gpkg_to_geojson w file_obj fs))).
Proof.
  intros Hfresh. split; [|split].
  - intros [e He]. apply temporary_file_removed; [exact Hfresh|].
    intros Hnone. congruence.
  - intros Hopened.
    destruct (import_error w) as [e|] eqn:Himport.
    + exfalso. revert Hopened.
      rewrite gpkg_to_geojson_run, Himport.
      destruct (is_Exception e); cbv zeta; cbn [res_log].
      * intros [[=]|Hin].
        apply process_path_log in Hin as (_ & _ & Hne). congruence.
      * intros [[=]|[]].
    + destruct (read file_obj) as [data|e] eqn:Hread.
      * split.
        -- apply temporary_file_removed; [exact Hfresh|].
           intros _. exists data. exact Hread.
        -- rewrite gpkg_to_geojson_run, Himport. cbv zeta.
           rewrite (library_path_run w file_obj fs data Hread). cbv zeta.
           cbn [res_log]. right. apply in_app_iff. right.
           apply in_app_iff. right. left. reflexivity.
      * exfalso. revert Hopened.
        rewrite gpkg_to_geojson_run, Himport. cbv zeta.
        rewrite (library_path_unread w file_obj fs e Hread). cbn [res_log].
        intros [[=]|[[=]|[]]].
  - intros e Hlibrary Hread.
    destruct (temporary_file_leaked w file_obj fs e Hlibrary Hread)
      as (Hout & Hfs & Hlog).
    split; [exact Hout|]. split; [|exact Hlog].
    rewrite Hfs. apply lookup_insert_eq.
Qed.

Lemma temporary_file_fate_witness :
  ((exists e, import_error Sample.unreadable = Some e) ->
   res_fs (gpkg_to_geojson Sample.unreadable Sample.file_obj Edge.busy)
   = Edge.busy)
  /\ (In (EvOpen (tmp_name Sample.unreadable Edge.busy))
        (res_log (gpkg_to_geojson Sample.unreadable Sample.file_obj Edge.busy))
      -> res_fs (gpkg_to_geojson Sample.unreadable Sample.file_obj Edge.busy)
         = Edge.busy
         /\ In (EvUnlink (tmp_name Sample.unreadable Edge.busy))
              (res_log (gpkg_to_geojson Sample.unreadable Sample.file_obj
                          Edge.busy)))
  /\ (forall e,
        import_error Sample.unreadable = None ->
        read Sample.file_obj = Raise e ->
        res_out (gpkg_to_geojson Sample.unreadable Sample.file_obj Edge.busy)
        = Raise e
        /\ res_fs (gpkg_to_geojson Sample.unreadable Sample.file_obj Edge.busy)
             !! tmp_name Sample.unreadable Edge.busy = Some []
        /\ ~ In (EvUnlink (tmp_name Sample.unreadable Edge.busy))
               (res_log (gpkg_to_geojson Sample.unreadable Sample.file_obj
                           Edge.busy))).
Proof.
  apply (temporary_file_fate Sample.unreadable Sample.file_obj Edge.busy).
  vm_compute. reflexivity.
Defined.

(** The call at the witness did open the file, raised, and left the file
    system as it was. *)
Example temporary_file_fate_sample :
  In (EvOpen (tmp_name Sample.unreadable Edge.busy))
    (res_log (gpkg_to_geojson Sample.unreadable Sample.file_obj Edge.busy))
  /\ res_out (gpkg_to_geojson Sample.unreadable Sample.file_obj Edge.busy)
     = Raise Sample.driver_error.
Proof. split; [do 3 right; left; reflexivity | vm_compute; reflexivity]. Qed.

(** ** The claims at the sample worlds *)

(** A layer with a binary column: the upload is read, Fiona opens it and
    yields its two records to the end, and the call returns no bytes. *)
Lemma library_path_feature_collection_counterexample :
  import_error (Edge.fiona_world Edge.blob_layer Sample.to_wgs84) = None
  /\ read Sample.file_obj = Ret Sample.upload
  /\ fiona_open (Edge.fiona_world Edge.blob_layer Sample.to_wgs84)
       (tmp_name (Edge.fiona_world Edge.blob_layer Sample.to_wgs84) ∅)
       (<[tmp_name (Edge.fiona_world Edge.blob_layer Sample.to_wgs84) ∅
          := Sample.upload]> ∅)
     = Ret Edge.blob_layer
  /\ ds_end Edge.blob_layer = None
  /\ length (ds_records Edge.blob_layer) = 2%nat
  /\ ~ exists out,
         res_out (gpkg_to_geojson
                    (Edge.fiona_world Edge.blob_layer Sample.to_wgs84)
                    Sample.file_obj ∅) = Ret out.
Proof.
  repeat split; try (vm_compute; reflexivity).
  intros [out Hout]. vm_compute in Hout. discriminate.
Qed.

Lemma library_path_feature_collection_witness :
  exists (texts : list pystr) (out : bytes),
    res_out (gpkg_to_geojson (Sample.with_fiona (Some Sample.utm33)) Sample.file_obj ∅) = Ret out
    /\ encode_utf8 (collection_text texts) = Some out
    /\ length texts = length (ds_records (Sample.layer (Some Sample.utm33)))
    /\ forall (i : nat) (rec : pydict),
         ds_records (Sample.layer (Some Sample.utm33)) !! i = Some rec ->
         exists (geom props : pyval) (g p : pystr),
           texts !! i = Some (feature_text g p)
           /\ json_dumps geom = Ret g
           /\ json_dumps props = Ret p
           /\ geom
              = (if truthy (geometry_of rec)
                    && needs_reprojection (crs_or_empty (Sample.layer (Some Sample.utm33)))
                 then
                   match transform_geom (Sample.with_fiona (Some Sample.utm33))
                           (crs_or_empty (Sample.layer (Some Sample.utm33))) target_crs
                           (geometry_of rec) with
                   | Ret g' => g'
                   | Raise _ => geometry_of rec
                   end
                 else geometry_of rec)
           /\ props
              = (if truthy (properties_of rec) then properties_of rec
                 else PyDict []).
Proof.
  apply (library_path_feature_collection
           (Sample.with_fiona (Some Sample.utm33)) Sample.file_obj ∅
           Sample.upload (Sample.layer (Some Sample.utm33))).
  - reflexivity.
  - reflexivity.
  - vm_compute. reflexivity.
  - reflexivity.
  - apply sample_records_safe.
  - intros g g'. apply to_wgs84_safe.
  - intros g e. apply to_wgs84_exception.
Defined.

Lemma reprojection_failure_keeps_geometry_witness :
  exists (texts : list pystr) (out : bytes),
    res_out (gpkg_to_geojson (Sample.with_fiona (Some Sample.utm33)) Sample.file_obj ∅) = Ret out
    /\ encode_utf8 (collection_text texts) = Some out
    /\ length texts = length (ds_records (Sample.layer (Some Sample.utm33)))
    /\ transformed
         (res_log (gpkg_to_geojson (Sample.with_fiona (Some Sample.utm33)) Sample.file_obj ∅))
         (geometry_of Sample.broken)
    /\ (exists g p,
          texts !! 2%nat = Some (feature_text g p)
          /\ json_dumps (geometry_of Sample.broken) = Ret g)
    /\ forall (j : nat) (rec' : pydict) (g' : pyval),
         ds_records (Sample.layer (Some Sample.utm33)) !! j = Some rec' ->
         truthy (geometry_of rec') = true ->
         transform_geom (Sample.with_fiona (Some Sample.utm33))
           (crs_or_empty (Sample.layer (Some Sample.utm33))) target_crs
           (geometry_of rec') = Ret g' ->
         exists g p,
           texts !! j = Some (feature_text g p) /\ json_dumps g' = Ret g.
Proof.
  apply (reprojection_failure_keeps_geometry
           (Sample.with_fiona (Some Sample.utm33)) Sample.file_obj ∅
           Sample.upload (Sample.layer (Some Sample.utm33))
           eq_refl eq_refl (sample_open _) 2%nat Sample.broken
           (OtherException "ValueError" (lit "no coordinates"))).
  - reflexivity.
  - apply sample_records_safe.
  - intros g g'. apply to_wgs84_safe.
  - intros g e. apply to_wgs84_exception.
  - reflexivity.
  - reflexivity.
  - reflexivity.
  - reflexivity.
Defined.



(** The message for the Latin-1 byte: U+FFFD in its place. *)
Example accent_message :
  res_out (gpkg_to_geojson Edge.accent_world Sample.file_obj ∅)
  = Raise (RuntimeError (lit "ogr2ogr failed: caf" ++ [REPLACEMENT; 0x21])).
Proof. vm_compute. reflexivity. Qed.
